(** * OpenAPI 3.0 specification validator: a shallow embedding

    Embedding of [scripts/validate_openapi.py] (skill api-contract-design):
    the six check passes, the severity filters of [main], and the exit
    status of the process.

    The document is the tree a JSON or YAML parser returns.  Python is
    dynamically typed, so every operation of the script on a node is modelled
    with the exception it raises on a node of the wrong type.  The keys of a
    mapping are strings; what the script prints is not modelled beyond the
    lists of findings and the way the process ends. *)

From Stdlib Require Import Bool Ascii String List NArith ZArith Lia Permutation.
From Stdlib Require QArith_base.
Import ListNotations.
Open Scope list_scope.
Open Scope string_scope.

(** ** Strings

    [str] values are byte strings; [lower] and [upper] map the ASCII letters
    and leave every other byte alone. *)

Module Str.

Definition is_upper (c : ascii) : bool :=
  let n := N_of_ascii c in ((65 <=? n) && (n <=? 90))%N.

Definition is_lower (c : ascii) : bool :=
  let n := N_of_ascii c in ((97 <=? n) && (n <=? 122))%N.

Definition lower_char (c : ascii) : ascii :=
  if is_upper c then ascii_of_N (N_of_ascii c + 32) else c.

Definition upper_char (c : ascii) : ascii :=
  if is_lower c then ascii_of_N (N_of_ascii c - 32) else c.

Fixpoint map_chars (f : ascii -> ascii) (s : string) : string :=
  match s with
  | EmptyString => EmptyString
  | String c r => String (f c) (map_chars f r)
  end.

(** [s.lower()] and [s.upper()] *)
Definition lower : string -> string := map_chars lower_char.
Definition upper : string -> string := map_chars upper_char.

(** [s.startswith(p)] *)
Definition startswith (s p : string) : bool := String.prefix p s.

Fixpoint rev (s : string) : string :=
  match s with
  | EmptyString => EmptyString
  | String c r => rev r ++ String c EmptyString
  end.

(** [s.endswith(p)] *)
Definition endswith (s p : string) : bool := String.prefix (rev p) (rev s).

(** [sub in s] for two strings: [sub] occurs in [s] as a substring *)
Fixpoint contains (sub s : string) : bool :=
  String.prefix sub s ||
  match s with
  | EmptyString => false
  | String _ r => contains sub r
  end.

(** [s.split(sep)] for a separator of one character: one more segment than
    there are separators, empty segments kept. *)
Fixpoint split (sep : ascii) (s : string) : list string :=
  match s with
  | EmptyString => [EmptyString]
  | String c r =>
      if Ascii.eqb c sep then EmptyString :: split sep r
      else match split sep r with
           | [] => [String c EmptyString]
           | seg :: segs => String c seg :: segs
           end
  end.

(** [re.findall(r'\{([^}]+)\}', s)]: the bracketed groups, left to right and
    without overlap.  The class [[^}]] also matches an opening brace, so a
    group runs from the first opening brace to the next closing one; an
    empty group [{}] is no match. *)
Fixpoint scan_params (inside : option string) (s : string) : list string :=
  match s with
  | EmptyString => []
  | String c r =>
      match inside with
      | None =>
          if Ascii.eqb c "{" then scan_params (Some EmptyString) r
          else scan_params None r
      | Some acc =>
          if Ascii.eqb c "}" then
            match acc with
            | EmptyString => scan_params None r
            | _ => acc :: scan_params None r
            end
          else scan_params (Some (acc ++ String c EmptyString)) r
      end
  end.

Definition findall_params (s : string) : list string := scan_params None s.

(** [e in l] for a list of strings *)
Definition mem (e : string) (l : list string) : bool :=
  existsb (String.eqb e) l.

End Str.

(** ** Document Model *)

(** A node of the parsed document.  A mapping keeps the order of its
    entries, which is the order [.items()] iterates in; its keys are strings,
    as in a JSON object. *)
#[warnings="-register-all"]
Inductive value : Type :=
| VNone
| VBool (b : bool)
| VInt (z : Z)
| VFloat (q : QArith_base.Q)
| VStr (s : string)
| VList (l : list value)
| VDict (d : list (string * value)).

Definition empty_dict : value := VDict [].

(** ** Exceptions *)

Inductive exn : Type := TypeError | AttributeError | KeyError.

Inductive result (A : Type) : Type :=
| Ok (a : A)
| Raise (e : exn).

Arguments Ok {A} a.
Arguments Raise {A} e.

(** ** Python operations on nodes *)

Module Py.

Fixpoint lookup (k : string) (d : list (string * value)) : option value :=
  match d with
  | [] => None
  | (k', v) :: r => if String.eqb k' k then Some v else lookup k r
  end.

Definition is_str (k : string) (v : value) : bool :=
  match v with
  | VStr s => String.eqb s k
  | _ => false
  end.

(** [k in x], [k] a string: key of a mapping, element of a sequence,
    substring of a string; a scalar is not iterable. *)
Definition contains (k : string) (x : value) : result bool :=
  match x with
  | VDict d => Ok (match lookup k d with Some _ => true | None => false end)
  | VList l => Ok (existsb (is_str k) l)
  | VStr s => Ok (Str.contains k s)
  | _ => Raise TypeError
  end.

(** [x[k]], [k] a string *)
Definition getitem (x : value) (k : string) : result value :=
  match x with
  | VDict d => match lookup k d with Some v => Ok v | None => Raise KeyError end
  | _ => Raise TypeError
  end.

(** [x.get(k, default)]: only a mapping has [get] *)
Definition get (x : value) (k : string) (default : value) : result value :=
  match x with
  | VDict d => Ok (match lookup k d with Some v => v | None => default end)
  | _ => Raise AttributeError
  end.

(** [x.items()] and [x.keys()] *)
Definition items (x : value) : result (list (string * value)) :=
  match x with
  | VDict d => Ok d
  | _ => Raise AttributeError
  end.

Definition keys (x : value) : result (list string) :=
  match x with
  | VDict d => Ok (map fst d)
  | _ => Raise AttributeError
  end.

(** the truth value of [x], as [not x] tests it *)
Definition truthy (x : value) : bool :=
  match x with
  | VNone => false
  | VBool b => b
  | VInt z => negb (Z.eqb z 0)
  | VFloat q => negb (Z.eqb (QArith_base.Qnum q) 0)
  | VStr s => negb (String.eqb s EmptyString)
  | VList l => match l with [] => false | _ => true end
  | VDict d => match d with [] => false | _ => true end
  end.

(** the receiver of a [str] method such as [x.startswith]: only a string has
    it *)
Definition str_method (x : value) : result string :=
  match x with
  | VStr s => Ok s
  | _ => Raise AttributeError
  end.

(** [x == s] for a string literal [s] *)
Definition eq_str (x : value) (s : string) : bool := is_str s x.

End Py.

(** ** The monad of a check pass

    A pass appends to its local lists [errors] and [warnings] and never
    reads them before it returns; an exception ends the pass, and the run. *)

Definition log : Type := (list string * list string)%type.

Definition M (A : Type) : Type := result (A * log).

Definition ret {A} (a : A) : M A := Ok (a, ([], [])).

Definition bind {A B} (m : M A) (k : A -> M B) : M B :=
  match m with
  | Raise e => Raise e
  | Ok (a, (e1, w1)) =>
      match k a with
      | Raise e => Raise e
      | Ok (b, (e2, w2)) => Ok (b, ((e1 ++ e2)%list, (w1 ++ w2)%list))
      end
  end.

Definition lift {A} (r : result A) : M A :=
  match r with
  | Ok a => ret a
  | Raise e => Raise e
  end.

(** [errors.append(msg)] and [warnings.append(msg)] *)
Definition error (msg : string) : M unit := Ok (tt, ([msg], [])).
Definition warning (msg : string) : M unit := Ok (tt, ([], [msg])).

Declare Scope pass_scope.
Delimit Scope pass_scope with pass.

Notation "x <- c ;; k" := (bind c (fun x => k))
  (at level 61, c at next level, right associativity) : pass_scope.
Notation "c ;;; k" := (bind c (fun _ => k))
  (at level 61, right associativity) : pass_scope.

Open Scope pass_scope.

Definition when (b : bool) (m : M unit) : M unit :=
  if b then m else ret tt.

(** [for x in l: body] *)
Fixpoint for_each {A} (l : list A) (body : A -> M unit) : M unit :=
  match l with
  | [] => ret tt
  | x :: r => body x ;;; for_each r body
  end.

(** [any(f(x) for x in l)]: stops at the first true *)
Fixpoint any_of {A} (f : A -> result bool) (l : list A) : M bool :=
  match l with
  | [] => ret false
  | x :: r => b <- lift (f x) ;; if b then ret true else any_of f r
  end.

(** [k1 not in x and k2 not in x and ...]: stops at the first key found *)
Fixpoint none_in (ks : list string) (x : value) : M bool :=
  match ks with
  | [] => ret true
  | k :: r => b <- lift (Py.contains k x) ;; if b then ret false else none_in r x
  end.

(** [return errors + warnings], or [return errors], [return warnings] for
    a pass with one list *)
Definition returned (m : M unit) : result (list string) :=
  match m with
  | Ok (_, (errors, warnings)) => Ok (errors ++ warnings)%list
  | Raise e => Raise e
  end.

(** ** The check passes *)

(** [operations] of [validate_paths] *)
Definition operations : list string :=
  ["get"; "post"; "put"; "patch"; "delete"; "options"; "head"].

(** [operations] of [validate_examples] *)
Definition example_operations : list string :=
  ["get"; "post"; "put"; "patch"; "delete"].

(** [verbs] of [validate_best_practices] *)
Definition verbs : list string :=
  ["get"; "create"; "update"; "delete"; "fetch"; "list"; "add"; "remove"].

(** *** validate_structure *)

Definition version_check (spec : value) : M unit :=
  has_openapi <- lift (Py.contains "openapi" spec) ;;
  if negb has_openapi then error "Missing required field: 'openapi'"
  else
    version <- lift (Py.getitem spec "openapi") ;;
    v <- lift (Py.str_method version) ;;
    when (negb (Str.startswith v "3.0"))
         (error ("Unsupported OpenAPI version: " ++ v)).

Definition info_check (spec : value) : M unit :=
  has_info <- lift (Py.contains "info" spec) ;;
  if negb has_info then error "Missing required field: 'info'"
  else
    info <- lift (Py.getitem spec "info") ;;
    has_title <- lift (Py.contains "title" info) ;;
    when (negb has_title) (error "Missing required field: 'info.title'") ;;;
    has_version <- lift (Py.contains "version" info) ;;
    when (negb has_version) (error "Missing required field: 'info.version'").

Definition paths_check (spec : value) : M unit :=
  has_paths <- lift (Py.contains "paths" spec) ;;
  if negb has_paths then error "Missing required field: 'paths'"
  else
    paths <- lift (Py.getitem spec "paths") ;;
    when (negb (Py.truthy paths))
         (error "'paths' object is empty - at least one path is required").

Definition structure_body (spec : value) : M unit :=
  version_check spec ;;; info_check spec ;;; paths_check spec.

Definition validate_structure (spec : value) : result (list string) :=
  returned (structure_body spec).

(** *** validate_paths *)

Definition operation_checks (path method : string) (operation : value) : M unit :=
  has_responses <- lift (Py.contains "responses" operation) ;;
  (if negb has_responses
   then error (Str.upper method ++ " " ++ path ++ ": Missing 'responses'")
   else
     responses <- lift (Py.getitem operation "responses") ;;
     when (negb (Py.truthy responses))
          (error (Str.upper method ++ " " ++ path ++ ": 'responses' is empty"))) ;;;
  undocumented <- none_in ["summary"; "description"] operation ;;
  when undocumented
       (warning (Str.upper method ++ " " ++ path
                 ++ ": Missing 'summary' or 'description'")) ;;;
  has_id <- lift (Py.contains "operationId" operation) ;;
  when (negb has_id)
       (warning (Str.upper method ++ " " ++ path
                 ++ ": Missing 'operationId' (recommended)")).

Definition path_checks (path : string) (path_item : value) : M unit :=
  when (negb (Str.startswith path "/"))
       (error ("Path '" ++ path ++ "' must start with '/'")) ;;;
  has_operation <- any_of (fun op => Py.contains op path_item) operations ;;
  when (negb has_operation)
       (warning ("Path '" ++ path ++ "' has no operations defined")) ;;;
  for_each operations (fun method =>
    present <- lift (Py.contains method path_item) ;;
    if present then
      operation <- lift (Py.getitem path_item method) ;;
      operation_checks path method operation
    else ret tt).

Definition paths_body (spec : value) : M unit :=
  paths <- lift (Py.get spec "paths" empty_dict) ;;
  entries <- lift (Py.items paths) ;;
  for_each entries (fun entry => path_checks (fst entry) (snd entry)).

Definition validate_paths (spec : value) : result (list string) :=
  returned (paths_body spec).

(** *** validate_schemas *)

Definition schema_checks (schema_name : string) (schema : value) : M unit :=
  untyped <- none_in ["type"; "$ref"; "allOf"; "oneOf"; "anyOf"] schema ;;
  when untyped
       (warning ("Schema '" ++ schema_name ++ "': Missing 'type' property")) ;;;
  has_description <- lift (Py.contains "description" schema) ;;
  when (negb has_description)
       (warning ("Schema '" ++ schema_name
                 ++ "': Missing 'description' (recommended)")) ;;;
  schema_type <- lift (Py.get schema "type" VNone) ;;
  if Py.eq_str schema_type "object" then
    has_properties <- lift (Py.contains "properties" schema) ;;
    when (negb has_properties)
         (warning ("Schema '" ++ schema_name
                   ++ "': Object type but no 'properties' defined"))
  else ret tt.

Definition schemas_body (spec : value) : M unit :=
  components <- lift (Py.get spec "components" empty_dict) ;;
  schemas <- lift (Py.get components "schemas" empty_dict) ;;
  entries <- lift (Py.items schemas) ;;
  for_each entries (fun entry => schema_checks (fst entry) (snd entry)).

Definition validate_schemas (spec : value) : result (list string) :=
  returned (schemas_body spec).

(** *** validate_security *)

Definition scheme_checks (scheme_name : string) (scheme : value) : M unit :=
  has_type <- lift (Py.contains "type" scheme) ;;
  when (negb has_type)
       (error ("Security scheme '" ++ scheme_name ++ "': Missing 'type'")) ;;;
  scheme_type <- lift (Py.get scheme "type" VNone) ;;
  if Py.eq_str scheme_type "http" then
    has_scheme <- lift (Py.contains "scheme" scheme) ;;
    when (negb has_scheme)
         (error ("Security scheme '" ++ scheme_name
                 ++ "': HTTP type requires 'scheme'"))
  else if Py.eq_str scheme_type "apiKey" then
    has_name <- lift (Py.contains "name" scheme) ;;
    when (negb has_name)
         (error ("Security scheme '" ++ scheme_name
                 ++ "': apiKey type requires 'name'")) ;;;
    has_in <- lift (Py.contains "in" scheme) ;;
    when (negb has_in)
         (error ("Security scheme '" ++ scheme_name
                 ++ "': apiKey type requires 'in'"))
  else if Py.eq_str scheme_type "oauth2" then
    has_flows <- lift (Py.contains "flows" scheme) ;;
    when (negb has_flows)
         (error ("Security scheme '" ++ scheme_name
                 ++ "': oauth2 type requires 'flows'"))
  else ret tt.

Definition security_body (spec : value) : M unit :=
  components <- lift (Py.get spec "components" empty_dict) ;;
  security_schemes <- lift (Py.get components "securitySchemes" empty_dict) ;;
  when (negb (Py.truthy security_schemes))
       (warning "No security schemes defined (consider adding authentication)") ;;;
  entries <- lift (Py.items security_schemes) ;;
  for_each entries (fun entry => scheme_checks (fst entry) (snd entry)).

Definition validate_security (spec : value) : result (list string) :=
  returned (security_body spec).

(** *** validate_examples *)

Definition request_msg (method path : string) : string :=
  Str.upper method ++ " " ++ path ++ ": Request body missing example".

Definition response_msg (method path status_code : string) : string :=
  Str.upper method ++ " " ++ path ++ ": Response " ++ status_code
  ++ " missing example".

(** the loop over the media types of one [content] mapping *)
Definition content_checks (msg : string) (content : value) : M unit :=
  entries <- lift (Py.items content) ;;
  for_each entries (fun entry =>
    bare <- none_in ["example"; "examples"] (snd entry) ;;
    when bare (warning msg)).

Definition example_checks (path method : string) (operation : value) : M unit :=
  has_body <- lift (Py.contains "requestBody" operation) ;;
  (if has_body then
     request_body <- lift (Py.getitem operation "requestBody") ;;
     content <- lift (Py.get request_body "content" empty_dict) ;;
     content_checks (request_msg method path) content
   else ret tt) ;;;
  responses <- lift (Py.get operation "responses" empty_dict) ;;
  entries <- lift (Py.items responses) ;;
  for_each entries (fun entry =>
    let status_code := fst entry in
    let response := snd entry in
    if Str.startswith status_code "2" then
      content <- lift (Py.get response "content" empty_dict) ;;
      content_checks (response_msg method path status_code) content
    else ret tt).

Definition examples_body (spec : value) : M unit :=
  paths <- lift (Py.get spec "paths" empty_dict) ;;
  entries <- lift (Py.items paths) ;;
  for_each entries (fun entry =>
    let path := fst entry in
    let path_item := snd entry in
    for_each example_operations (fun method =>
      present <- lift (Py.contains method path_item) ;;
      if present then
        operation <- lift (Py.getitem path_item method) ;;
        example_checks path method operation
      else ret tt)).

Definition validate_examples (spec : value) : result (list string) :=
  returned (examples_body spec).

(** *** validate_best_practices *)

Definition param_rule (path : string) : M unit :=
  when (Str.contains "{" path && Str.contains "}" path)
       (for_each (Str.findall_params path) (fun param =>
          when (String.eqb (Str.upper param) param || Str.contains "_" param)
               (warning ("Path '" ++ path ++ "': Parameter '" ++ param
                         ++ "' should use camelCase")))).

Definition trailing_slash_rule (path : string) : M unit :=
  when (Str.endswith path "/" && negb (String.eqb path "/"))
       (warning ("Path '" ++ path ++ "': Avoid trailing slashes")).

Definition verb_msg (path : string) : string :=
  "Path '" ++ path ++ "': Avoid verbs in path (use HTTP methods instead)".

Definition verb_rule (path : string) : M unit :=
  let path_parts := Str.split "/" (Str.lower path) in
  for_each verbs (fun verb =>
    when (Str.mem verb path_parts) (warning (verb_msg path))).

Definition best_practices_body (spec : value) : M unit :=
  has_servers <- lift (Py.contains "servers" spec) ;;
  when (negb has_servers)
       (warning "No 'servers' defined (recommended to specify base URLs)") ;;;
  has_tags <- lift (Py.contains "tags" spec) ;;
  when (negb has_tags)
       (warning "No 'tags' defined (recommended for API organization)") ;;;
  info <- lift (Py.get spec "info" empty_dict) ;;
  has_contact <- lift (Py.contains "contact" info) ;;
  when (negb has_contact)
       (warning "No contact information in 'info' (recommended)") ;;;
  has_license <- lift (Py.contains "license" info) ;;
  when (negb has_license)
       (warning "No license information in 'info' (consider adding)") ;;;
  paths <- lift (Py.get spec "paths" empty_dict) ;;
  keys <- lift (Py.keys paths) ;;
  for_each keys (fun path =>
    param_rule path ;;;
    trailing_slash_rule path ;;;
    verb_rule path).

Definition validate_best_practices (spec : value) : result (list string) :=
  returned (best_practices_body spec).

(** ** The validation run of [main] *)

(** The two lists [main] accumulates over the passes. *)
Record findings : Type := Findings {
  all_errors : list string;
  all_warnings : list string
}.

Definition no_findings : findings := Findings [] [].

(** The six passes, in the order [main] calls them. *)
Inductive pass : Type :=
| Structure | Paths | Schemas | Security | Examples | BestPractices.

Inductive severity : Type := Error | Warning.

Definition run_pass (p : pass) (spec : value) : result (list string) :=
  match p with
  | Structure => validate_structure spec
  | Paths => validate_paths spec
  | Schemas => validate_schemas spec
  | Security => validate_security spec
  | Examples => validate_examples spec
  | BestPractices => validate_best_practices spec
  end.

(** The condition of the comprehension that extends [all_errors] after each
    pass; the last two passes extend [all_warnings] only. *)
Definition is_error (p : pass) (e : string) : bool :=
  match p with
  | Structure => Str.contains "Missing required" e || Str.contains "Unsupported" e
  | Paths => Str.contains "Missing" e && Str.contains "required" (Str.lower e)
  | Schemas => Str.contains "required" (Str.lower e)
  | Security => Str.contains "Missing" e && Str.contains "requires" e
  | Examples | BestPractices => false
  end.

Definition classify (p : pass) (e : string) : severity :=
  if is_error p e then Error else Warning.

(** [all_errors.extend([e for e in issues if <condition>])] followed by
    [all_warnings.extend([e for e in issues if e not in all_errors])] *)
Definition extend_filtered (p : pass) (issues : list string) (acc : findings)
  : findings :=
  let errors := (all_errors acc ++ filter (is_error p) issues)%list in
  Findings errors
    (all_warnings acc ++ filter (fun e => negb (Str.mem e errors)) issues)%list.

(** [all_warnings.extend(issues)] *)
Definition extend_warnings (issues : list string) (acc : findings) : findings :=
  Findings (all_errors acc) (all_warnings acc ++ issues)%list.

Definition and_then {A B} (r : result A) (k : A -> result B) : result B :=
  match r with
  | Ok a => k a
  | Raise e => Raise e
  end.

Notation "'call' x ':=' r 'in' k" := (and_then r (fun x => k))
  (at level 10, x name, r at level 100, k at level 200).

(** Lines 250 to 274 of [main]: the validation engine. *)
Definition run_validations (spec : value) : result findings :=
  let acc := no_findings in
  call structure_errors := validate_structure spec in
  let acc := extend_filtered Structure structure_errors acc in
  call path_issues := validate_paths spec in
  let acc := extend_filtered Paths path_issues acc in
  call schema_issues := validate_schemas spec in
  let acc := extend_filtered Schemas schema_issues acc in
  call security_issues := validate_security spec in
  let acc := extend_filtered Security security_issues acc in
  call example_warnings := validate_examples spec in
  let acc := extend_warnings example_warnings acc in
  call best_practice_warnings := validate_best_practices spec in
  let acc := extend_warnings best_practice_warnings acc in
  Ok acc.

(** ** The process *)

(** How a run of the script ends.  Console output is not modelled beyond
    the branch of the summary that is printed. *)
Inductive ending : Type :=
| Usage                                   (* no file argument: [sys.exit(1)] *)
| LoadErrors (load_errors : list string)  (* [sys.exit(1)] *)
| ValidNoIssues                           (* [main] returns *)
| ValidWithWarnings (f : findings)        (* [main] returns *)
| HasErrors (f : findings)                (* [sys.exit(1)] *)
| Uncaught (e : exn).                     (* traceback of an exception *)

(** The exit status of the interpreter: the argument of [sys.exit], 0 when
    [main] returns, 1 when an exception is not caught. *)
Definition exit_status (e : ending) : Z :=
  match e with
  | Usage | LoadErrors _ | HasErrors _ | Uncaught _ => 1
  | ValidNoIssues | ValidWithWarnings _ => 0
  end.

Section Process.

(** Opening the file and parsing it ([json.load] for a name ending in
    [.json], [yaml.safe_load] otherwise): the document, or the text of the
    exception. *)
Variable parse_file : string -> value + string.

Definition load_spec (file_path : string) : value * list string :=
  match parse_file file_path with
  | inl spec => (spec, [])
  | inr e => (empty_dict, ["Failed to load spec: " ++ e])
  end.

(** [argv] is [sys.argv]: the script name, then the arguments. *)
Definition main (argv : list string) : ending :=
  match argv with
  | [] | [_] => Usage
  | _ :: spec_file :: _ =>
      let (spec, load_errors) := load_spec spec_file in
      match load_errors with
      | _ :: _ => LoadErrors load_errors
      | [] =>
          match run_validations spec with
          | Raise e => Uncaught e
          | Ok f =>
              match all_errors f, all_warnings f with
              | [], [] => ValidNoIssues
              | [], _ :: _ => ValidWithWarnings f
              | _ :: _, _ => HasErrors f
              end
          end
      end
  end.

End Process.

(** ** Sample documents *)

Module Samples.

Definition info : string * value :=
  ("info", VDict [("title", VStr "Users API"); ("version", VStr "1.0.0")]).

Definition ok_response : value :=
  VDict [("200", VDict [("description", VStr "OK")])].

(** a [get] operation without [responses] *)
Definition doc_missing_responses : value :=
  VDict [("openapi", VStr "3.0.0"); info;
         ("paths", VDict [("/users", VDict [("get", VDict [])])])].

(** a [get] operation whose [responses] is the empty mapping *)
Definition doc_empty_responses : value :=
  VDict [("openapi", VStr "3.0.0"); info;
         ("paths", VDict [("/users",
            VDict [("get", VDict [("responses", VDict [])])])])].

(** [paths] present and empty *)
Definition doc_empty_paths : value :=
  VDict [("openapi", VStr "3.0.0"); info; ("paths", VDict [])].

(** scenario C: an [apiKey] scheme with neither [name] nor [in] *)
Definition doc_api_key : value :=
  VDict [("openapi", VStr "3.0.0"); info;
         ("paths", VDict [("/users", VDict [("get",
            VDict [("responses", ok_response); ("summary", VStr "List users");
                   ("operationId", VStr "listUsers")])])]);
         ("components", VDict [("securitySchemes",
            VDict [("myApiKey", VDict [("type", VStr "apiKey")])])])].

(** a path key without the leading slash *)
Definition doc_relative_path : value :=
  VDict [("openapi", VStr "3.0.0"); info;
         ("paths", VDict [("users", VDict [("get",
            VDict [("responses", ok_response); ("summary", VStr "List users");
                   ("operationId", VStr "listUsers")])])])].

(** [openapi: 3.0] without quotes: YAML reads a number *)
Definition doc_numeric_version : value :=
  VDict [("openapi", VFloat (QArith_base.Qmake 3 1)); info;
         ("paths", VDict [("/users", VDict [])])].

(** scenario B *)
Definition doc_scenario_b : value :=
  VDict [("openapi", VStr "3.0.0"); info;
         ("paths", VDict [("/users", VDict [("get",
            VDict [("responses", ok_response)])])])].

(** a [head] and a [post] operation with a request body and a 200 response
    that carry no example *)
Definition bare_content : value :=
  VDict [("content", VDict [("application/json", VDict [("schema", VDict [])]);
                            ("text/plain", VDict [("example", VStr "x")]);
                            ("application/xml", VDict [])])].

Definition bare_operation : value :=
  VDict [("requestBody", bare_content);
         ("responses", VDict [("200", bare_content); ("404", bare_content)])].

Definition doc_head_examples : value :=
  VDict [("openapi", VStr "3.0.0"); info;
         ("paths", VDict [("/users", VDict [("head", bare_operation)])])].

Definition doc_post_examples : value :=
  VDict [("openapi", VStr "3.0.0"); info;
         ("paths", VDict [("/users", VDict [("post", bare_operation)])])].

(** errors and warnings from several passes at once *)
Definition doc_mixed : value :=
  VDict [("openapi", VStr "2.0");
         ("info", VDict [("version", VStr "1.0.0")]);
         ("paths", VDict [("/required/{user_id}/", VDict [("get", VDict [])]);
                          ("items/list", VDict [])]);
         ("components", VDict [
            ("schemas", VDict [("Pet", VDict [("type", VStr "object")])]);
            ("securitySchemes",
             VDict [("Missing", VDict [("type", VStr "apiKey")])])])].

Definition mixed_findings : findings :=
  Eval vm_compute in
    match run_validations doc_mixed with
    | Ok f => f
    | Raise _ => no_findings
    end.

End Samples.

(** ** Vocabulary of the properties *)

(** Every message the computation appends satisfies [P]. *)
Definition emits {A} (P : string -> Prop) (m : M A) : Prop :=
  forall a es ws, m = Ok (a, (es, ws)) -> Forall P es /\ Forall P ws.

(** Which pass a message comes from: the messages of the first four passes
    start differently, pass by pass, and the first two characters tell the
    pass. *)
Definition origin (e : string) : option pass :=
  let t := substring 0 2 e in
  if Str.mem t ["Mi"; "Un"; "'p"] then Some Structure
  else if Str.mem t ["Pa"; "GE"; "PO"; "PU"; "PA"; "DE"; "OP"; "HE"] then Some Paths
  else if Str.mem t ["Sc"] then Some Schemas
  else if Str.mem t ["No"; "Se"] then Some Security
  else None.

(** The findings of all passes in emission order, each with its pass. *)
Fixpoint collect (ps : list pass) (spec : value) : result (list (pass * string)) :=
  match ps with
  | [] => Ok []
  | p :: r =>
      call issues := run_pass p spec in
      call rest := collect r spec in
      Ok (map (pair p) issues ++ rest)%list
  end.

Definition raw_findings (spec : value) : result (list (pass * string)) :=
  collect [Structure; Paths; Schemas; Security; Examples; BestPractices] spec.

Definition raw_is_error (pe : pass * string) : bool := is_error (fst pe) (snd pe).

Definition severity_eqb (a b : severity) : bool :=
  match a, b with
  | Error, Error | Warning, Warning => true
  | _, _ => false
  end.

(** The messages of [raw] that [classify] gives severity [s], in order. *)
Definition with_severity (s : severity) (raw : list (pass * string)) : list string :=
  map snd (filter (fun pe => severity_eqb (classify (fst pe) (snd pe)) s) raw).

(** *** Example coverage: the shape of a document and the expected warnings *)

Definition has_key (k : string) (x : value) : bool :=
  match Py.contains k x with
  | Ok b => b
  | Raise _ => false
  end.

(** a media-type entry that has neither [example] nor [examples] *)
Definition lacks_example (media_type_obj : value) : bool :=
  negb (has_key "example" media_type_obj)
  && negb (has_key "examples" media_type_obj).

Definition bare_entries (content : list (string * value)) : nat :=
  length (filter (fun entry => lacks_example (snd entry)) content).

Definition entries_of (v : value) : list (string * value) :=
  match v with
  | VDict d => d
  | _ => []
  end.

(** [x.get(k, {})] on a mapping *)
Definition field (k : string) (x : value) : value :=
  match x with
  | VDict d => match Py.lookup k d with Some v => v | None => empty_dict end
  | _ => empty_dict
  end.

Definition is_container (v : value) : bool :=
  match v with
  | VDict _ | VList _ | VStr _ => true
  | _ => false
  end.

Definition content_ok (holder : value) : bool :=
  match holder with
  | VDict h =>
      match Py.lookup "content" h with
      | None => true
      | Some (VDict c) => forallb (fun entry => is_container (snd entry)) c
      | Some _ => false
      end
  | _ => false
  end.

Definition operation_ok (operation : value) : bool :=
  match operation with
  | VDict o =>
      match Py.lookup "requestBody" o with
      | None => true
      | Some request_body => content_ok request_body
      end
      && match Py.lookup "responses" o with
         | None => true
         | Some (VDict rs) =>
             forallb (fun entry => negb (Str.startswith (fst entry) "2")
                                   || content_ok (snd entry)) rs
         | Some _ => false
         end
  | _ => false
  end.

Definition path_item_ok (path_item : value) : bool :=
  match path_item with
  | VDict i =>
      forallb (fun method => match Py.lookup method i with
                             | None => true
                             | Some operation => operation_ok operation
                             end) example_operations
  | _ => false
  end.

Definition examples_ok (spec : value) : bool :=
  match spec with
  | VDict d =>
      match Py.lookup "paths" d with
      | None => true
      | Some (VDict ps) => forallb (fun entry => path_item_ok (snd entry)) ps
      | Some _ => false
      end
  | _ => false
  end.

Definition content_warnings (msg : string) (holder : value) : list string :=
  repeat msg (bare_entries (entries_of (field "content" holder))).

Definition operation_example_warnings (path method : string) (operation : value)
  : list string :=
  (if has_key "requestBody" operation
   then content_warnings (request_msg method path) (field "requestBody" operation)
   else [])
  ++ flat_map (fun entry =>
       if Str.startswith (fst entry) "2"
       then content_warnings (response_msg method path (fst entry)) (snd entry)
       else [])
     (entries_of (field "responses" operation)).

Definition path_example_warnings (path : string) (path_item : value) : list string :=
  flat_map (fun method =>
    if has_key method path_item
    then operation_example_warnings path method (field method path_item)
    else []) example_operations.

Definition example_warnings (spec : value) : list string :=
  flat_map (fun entry => path_example_warnings (fst entry) (snd entry))
           (entries_of (field "paths" spec)).

(** *** Messages of the findings that the passes file as errors *)

(** Messages of the findings *)
Definition slash_msg (path : string) : string :=
  "Path '" ++ path ++ "' must start with '/'".

Definition missing_responses_msg (method path : string) : string :=
  Str.upper method ++ " " ++ path ++ ": Missing 'responses'".

Definition empty_responses_msg (method path : string) : string :=
  Str.upper method ++ " " ++ path ++ ": 'responses' is empty".

Definition api_key_msg (scheme_name field : string) : string :=
  "Security scheme '" ++ scheme_name ++ "': apiKey type requires '" ++ field ++ "'".

(** The computation, when it returns, has appended [msg]. *)
Definition reports {A} (msg : string) (m : M A) : Prop :=
  forall a es ws, m = Ok (a, (es, ws)) -> In msg (es ++ ws).

(** [c] does not occur in [s] *)
Fixpoint char_free (c : ascii) (s : string) : bool :=
  match s with
  | EmptyString => true
  | String a r => negb (Ascii.eqb a c) && char_free c r
  end.

(** *** Messages and command lines of the sample runs *)

Definition empty_paths_msg : string :=
  "'paths' object is empty - at least one path is required".

Definition standing_warnings : list string :=
  ["No 'servers' defined (recommended to specify base URLs)";
   "No 'tags' defined (recommended for API organization)";
   "No contact information in 'info' (recommended)";
   "No license information in 'info' (consider adding)"].

Definition no_security_warning : string :=
  "No security schemes defined (consider adding authentication)".

Definition one_file (spec : value) : string -> value + string :=
  fun _ => inl spec.

Definition cli : list string := ["validate_openapi.py"; "api.yaml"].

(** *** Vocabulary of the further properties *)

Definition path_names (spec : value) : list string :=
  map fst (entries_of (field "paths" spec)).

Definition schema_names (spec : value) : list string :=
  map fst (entries_of (field "schemas" (field "components" spec))).

Definition scheme_names (spec : value) : list string :=
  map fst (entries_of (field "securitySchemes" (field "components" spec))).

Definition no_operations_msg (path : string) : string :=
  "Path '" ++ path ++ "' has no operations defined".

Definition missing_type_msg (schema_name : string) : string :=
  "Schema '" ++ schema_name ++ "': Missing 'type' property".

(** [k in x] for a mapping given by its entries *)
Definition has (k : string) (d : list (string * value)) : bool :=
  match Py.lookup k d with Some _ => true | None => false end.

Definition missing_description_msg (schema_name : string) : string :=
  "Schema '" ++ schema_name ++ "': Missing 'description' (recommended)".

Definition no_properties_msg (schema_name : string) : string :=
  "Schema '" ++ schema_name ++ "': Object type but no 'properties' defined".

Definition missing_scheme_type_msg (scheme_name : string) : string :=
  "Security scheme '" ++ scheme_name ++ "': Missing 'type'".

Definition http_scheme_msg (scheme_name : string) : string :=
  "Security scheme '" ++ scheme_name ++ "': HTTP type requires 'scheme'".

Definition oauth2_flows_msg (scheme_name : string) : string :=
  "Security scheme '" ++ scheme_name ++ "': oauth2 type requires 'flows'".

(** no lower-case ASCII letter in [s] *)
Fixpoint no_lower (s : string) : bool :=
  match s with
  | EmptyString => true
  | String c r => negb (Str.is_lower c) && no_lower r
  end.

(** the condition under which a path parameter is flagged *)
Definition flagged (param : string) : bool :=
  no_lower param || negb (char_free "_" param).

Definition param_msg (path param : string) : string :=
  "Path '" ++ path ++ "': Parameter '" ++ param ++ "' should use camelCase".

Definition trailing_slash_msg (path : string) : string :=
  "Path '" ++ path ++ "': Avoid trailing slashes".

(** a schema whose name holds the word the schema filter looks for *)
Definition doc_required_schema : value :=
  VDict [("openapi", VStr "3.0.0"); Samples.info;
         ("paths", VDict [("/users", VDict [("get",
            VDict [("responses", Samples.ok_response);
                   ("summary", VStr "List users");
                   ("operationId", VStr "listUsers")])])]);
         ("components", VDict [("schemas",
            VDict [("RequiredFields", VDict [("type", VStr "string")])])])].

(** a message of the examples pass about an operation of the document *)
Definition example_finding (spec : value) (e : string) : Prop :=
  exists method path,
    In method example_operations /\ In path (path_names spec) /\
    (e = request_msg method path \/
     exists status, Str.startswith status "2" = true /\
                    e = response_msg method path status).

Definition is_dict (v : value) : bool :=
  match v with VDict _ => true | _ => false end.

(** a path item: a mapping whose operations, under any of the seven methods,
    are mappings with request bodies and responses of the expected shape *)
Definition path_item_shape (path_item : value) : bool :=
  match path_item with
  | VDict i =>
      forallb (fun method => match Py.lookup method i with
                             | None => true
                             | Some operation => operation_ok operation
                             end) operations
  | _ => false
  end.

(** a mapping of mappings, when present *)
Definition named_mappings (k : string) (components : list (string * value)) : bool :=
  match Py.lookup k components with
  | None => true
  | Some (VDict entries) => forallb (fun entry => is_dict (snd entry)) entries
  | Some _ => false
  end.

(** The shape of a document on which no operation of the script raises. *)
Definition well_shaped (spec : value) : bool :=
  match spec with
  | VDict d =>
      match Py.lookup "openapi" d with
      | None | Some (VStr _) => true
      | Some _ => false
      end
      && match Py.lookup "info" d with
         | None => true
         | Some info => is_container info
         end
      && match Py.lookup "paths" d with
         | None => true
         | Some (VDict ps) => forallb (fun entry => path_item_shape (snd entry)) ps
         | Some _ => false
         end
      && match Py.lookup "components" d with
         | None => true
         | Some (VDict c) => named_mappings "schemas" c
                             && named_mappings "securitySchemes" c
         | Some _ => false
         end
  | _ => false
  end.

(** The computation returns: it raises nothing. *)
Definition returns {A} (m : M A) : Prop := exists a log, m = Ok (a, log).

Definition undocumented_msg (method path : string) : string :=
  Str.upper method ++ " " ++ path ++ ": Missing 'summary' or 'description'".

Definition no_operation_id_msg (method path : string) : string :=
  Str.upper method ++ " " ++ path ++ ": Missing 'operationId' (recommended)".

Definition no_servers_msg : string :=
  "No 'servers' defined (recommended to specify base URLs)".
Definition no_tags_msg : string :=
  "No 'tags' defined (recommended for API organization)".
Definition no_contact_msg : string :=
  "No contact information in 'info' (recommended)".
Definition no_license_msg : string :=
  "No license information in 'info' (consider adding)".

(** ** Laws of the pass monad *)

Lemma bind_ret_l {A B} (a : A) (k : A -> M B) : bind (ret a) k = k a.
Proof. unfold bind, ret. destruct (k a) as [[b [es ws]]|]; reflexivity. Qed.

Lemma bind_lift_Ok {A B} (a : A) (k : A -> M B) : bind (lift (Ok a)) k = k a.
Proof. apply bind_ret_l. Qed.

Lemma bind_Ok {A B} (m : M A) (k : A -> M B) b es ws :
  bind m k = Ok (b, (es, ws)) ->
  exists a e1 w1 e2 w2,
    m = Ok (a, (e1, w1)) /\ k a = Ok (b, (e2, w2)) /\
    es = (e1 ++ e2)%list /\ ws = (w1 ++ w2)%list.
Proof.
  unfold bind. destruct m as [[a [e1 w1]]|]; [|discriminate].
  destruct (k a) as [[b' [e2 w2]]|] eqn:Hk; [|discriminate].
  intros H. inversion H; subst. exists a, e1, w1, e2, w2. auto.
Qed.

Lemma bind_Raise {A B} (m : M A) (k : A -> M B) e :
  m = Raise e -> bind m k = Raise e.
Proof. intros ->. reflexivity. Qed.

Lemma bind_warnings {A B} (m : M A) (k : A -> M B) a b w1 w2 :
  m = Ok (a, ([], w1)) -> k a = Ok (b, ([], w2)) ->
  bind m k = Ok (b, ([], (w1 ++ w2)%list)).
Proof. intros -> Hk. unfold bind. rewrite Hk. reflexivity. Qed.

Lemma for_each_when_warning {A} (g : A -> bool) (msg : string) (l : list A) :
  for_each l (fun x => when (g x) (warning msg)) =
  Ok (tt, ([], repeat msg (length (filter g l)))).
Proof.
  induction l as [|x r IH]; [reflexivity|].
  simpl. rewrite IH. destruct (g x); reflexivity.
Qed.

Lemma for_each_flat_map {A} (l : list A) (body : A -> M unit) (f : A -> list string) :
  (forall x, In x l -> body x = Ok (tt, ([], f x))) ->
  for_each l body = Ok (tt, ([], flat_map f l)).
Proof.
  induction l as [|x r IH]; intros H; [reflexivity|].
  simpl. rewrite (H x (or_introl eq_refl)), IH; [reflexivity|].
  intros y Hy. apply H. right. assumption.
Qed.

Lemma flat_map_repeat {A} (g : A -> bool) (msg : string) (l : list A) :
  flat_map (fun x => if g x then [msg] else []) l = repeat msg (length (filter g l)).
Proof.
  induction l as [|x r IH]; [reflexivity|].
  simpl. destruct (g x); simpl; rewrite IH; reflexivity.
Qed.

Lemma count_occ_repeat (msg : string) n :
  count_occ string_dec (repeat msg n) msg = n.
Proof.
  induction n as [|n IH]; [reflexivity|].
  simpl. destruct (string_dec msg msg); congruence.
Qed.

Lemma count_occ_flat_map_ge {A} (f : A -> list string) (l : list A) x msg :
  In x l -> count_occ string_dec (f x) msg <= count_occ string_dec (flat_map f l) msg.
Proof.
  induction l as [|y r IH]; intros Hin; [destruct Hin|].
  simpl. rewrite count_occ_app. destruct Hin as [->|Hin]; [lia|].
  specialize (IH Hin). lia.
Qed.

(** ** Substrings of a message built around a name *)

Lemma lower_app s t : Str.lower (s ++ t) = Str.lower s ++ Str.lower t.
Proof.
  unfold Str.lower. induction s as [|c r IH]; simpl; [reflexivity|].
  rewrite IH. reflexivity.
Qed.

(** A text that goes on with a character foreign to [sub] starts with [sub]
    exactly when its first part does. *)
Lemma prefix_app_foreign sub s c post :
  char_free c sub = true ->
  String.prefix sub (s ++ String c post) = String.prefix sub s.
Proof.
  revert s. induction sub as [|a sub' IH]; intros s Hfree; [destruct s; reflexivity|].
  simpl in Hfree. apply andb_true_iff in Hfree. destruct Hfree as [Hac Hfree].
  destruct s as [|b r]; simpl.
  - destruct (ascii_dec a c) as [->|Hne].
    + rewrite Ascii.eqb_refl in Hac. discriminate.
    + reflexivity.
  - destruct (ascii_dec a b); [apply IH; assumption|reflexivity].
Qed.

Lemma contains_app_foreign sub s c post :
  char_free c sub = true ->
  Str.contains sub (String c post) = false ->
  Str.contains sub (s ++ String c post) = Str.contains sub s.
Proof.
  intros Hfree Hpost. induction s as [|b r IH].
  - simpl (""  ++ _). rewrite Hpost.
    destruct sub; [discriminate Hpost|reflexivity].
  - change (Str.contains sub ((String b r) ++ String c post))
      with (String.prefix sub (String b r ++ String c post)
            || Str.contains sub (r ++ String c post)).
    rewrite IH, prefix_app_foreign by assumption. reflexivity.
Qed.

Lemma contains_app_r sub s post :
  Str.contains sub post = true -> Str.contains sub (s ++ post) = true.
Proof.
  intros H. induction s as [|b r IH]; [assumption|].
  change (Str.contains sub (String b r ++ post))
    with (String.prefix sub (String b r ++ post) || Str.contains sub (r ++ post)).
  rewrite IH. apply orb_true_r.
Qed.

Ltac lower_literal :=
  repeat match goal with
         | |- context [Str.lower (String ?c ?r)] =>
             let t := eval vm_compute in (Str.lower (String c r)) in
             change (Str.lower (String c r)) with t
         end.

Ltac foreign_suffix :=
  rewrite contains_app_foreign by reflexivity.

(** The method in front of a message holds neither word. *)
Lemma skip_method_required method :
  In method operations ->
  forall x, Str.contains "required" (Str.lower (Str.upper method ++ " " ++ x))
            = Str.contains "required" (Str.lower x).
Proof.
  intros Hm x. unfold operations in Hm. simpl in Hm.
  repeat (destruct Hm as [<-|Hm]; [reflexivity|]). contradiction.
Qed.

Lemma skip_method_missing method :
  In method operations ->
  forall x, Str.contains "Missing" (Str.upper method ++ " " ++ x)
            = Str.contains "Missing" x.
Proof.
  intros Hm x. unfold operations in Hm. simpl in Hm.
  repeat (destruct Hm as [<-|Hm]; [reflexivity|]). contradiction.
Qed.

(** ** What a pass is sure to report *)

Section Reports.

Variable msg : string.

Lemma reports_error : reports msg (error msg).
Proof. intros a es ws H. inversion H. left. reflexivity. Qed.

Lemma reports_bind_l {A B} (m : M A) (k : A -> M B) :
  reports msg m -> reports msg (bind m k).
Proof.
  intros Hm b es ws H. apply bind_Ok in H.
  destruct H as [a [e1 [w1 [e2 [w2 [H1 [_ [-> ->]]]]]]]].
  specialize (Hm _ _ _ H1). apply in_app_or in Hm.
  apply in_or_app. destruct Hm; [left|right]; apply in_or_app; auto.
Qed.

Lemma reports_bind_r {A B} (m : M A) (k : A -> M B) :
  (forall a, reports msg (k a)) -> reports msg (bind m k).
Proof.
  intros Hk b es ws H. apply bind_Ok in H.
  destruct H as [a [e1 [w1 [e2 [w2 [_ [H2 [-> ->]]]]]]]].
  specialize (Hk _ _ _ _ H2). apply in_app_or in Hk.
  apply in_or_app. destruct Hk; [left|right]; apply in_or_app; auto.
Qed.

Lemma reports_for_each {A} (l : list A) (body : A -> M unit) x :
  In x l -> reports msg (body x) -> reports msg (for_each l body).
Proof.
  induction l as [|y r IH]; intros Hin Hx; [destruct Hin|].
  simpl. destruct Hin as [->|Hin].
  - apply reports_bind_l, Hx.
  - apply reports_bind_r. intros _. apply IH; assumption.
Qed.

Lemma reports_returned (m : M unit) l :
  reports msg m -> returned m = Ok l -> In msg l.
Proof.
  intros Hm H. destruct m as [[[] [es ws]]|]; [|discriminate].
  inversion H; subst. apply (Hm tt es ws eq_refl).
Qed.

End Reports.

(** ** What a pass emits *)

Section Emits.

Variable P : string -> Prop.

Lemma emits_ret {A} (a : A) : emits P (ret a).
Proof. intros a' es ws H; inversion H; auto. Qed.

Lemma emits_lift {A} (r : result A) : emits P (lift r).
Proof. destruct r; intros a' es ws H; inversion H; auto. Qed.

Lemma emits_error msg : P msg -> emits P (error msg).
Proof. intros Hm a es ws H; inversion H; auto. Qed.

Lemma emits_warning msg : P msg -> emits P (warning msg).
Proof. intros Hm a es ws H; inversion H; auto. Qed.

Lemma emits_bind {A B} (m : M A) (k : A -> M B) :
  emits P m -> (forall a, emits P (k a)) -> emits P (bind m k).
Proof.
  intros Hm Hk b es ws H. unfold bind in H.
  destruct m as [[a [e1 w1]]|]; [|discriminate].
  destruct (k a) as [[b' [e2 w2]]|] eqn:Hka; [|discriminate].
  inversion H; subst.
  destruct (Hm _ _ _ eq_refl), (Hk _ _ _ _ Hka).
  split; apply Forall_app; auto.
Qed.

Lemma emits_when b m : emits P m -> emits P (when b m).
Proof. destruct b; simpl; auto using emits_ret. Qed.

Lemma emits_for_each {A} (l : list A) body :
  (forall x, In x l -> emits P (body x)) -> emits P (for_each l body).
Proof.
  induction l as [|x r IH]; simpl; intros H.
  - apply emits_ret.
  - apply emits_bind; auto.
Qed.

Lemma emits_any_of {A} (f : A -> result bool) l : emits P (any_of f l).
Proof.
  induction l as [|x r IH]; simpl.
  - apply emits_ret.
  - apply emits_bind; [apply emits_lift|intros []; auto using emits_ret].
Qed.

Lemma emits_none_in ks x : emits P (none_in ks x).
Proof.
  induction ks as [|k r IH]; simpl.
  - apply emits_ret.
  - apply emits_bind; [apply emits_lift|intros []; auto using emits_ret].
Qed.

Lemma emits_returned (m : M unit) l :
  emits P m -> returned m = Ok l -> Forall P l.
Proof.
  intros Hm H. destruct m as [[[] [es ws]]|]; [|discriminate].
  inversion H; subst. destruct (Hm _ _ _ eq_refl). apply Forall_app; auto.
Qed.

End Emits.

Ltac emits_step :=
  lazymatch goal with
  | |- emits _ (bind _ _) => apply emits_bind; [|intros ?]
  | |- emits _ (lift _) => apply emits_lift
  | |- emits _ (ret _) => apply emits_ret
  | |- emits _ (when _ _) => apply emits_when
  | |- emits _ (error _) => apply emits_error
  | |- emits _ (warning _) => apply emits_warning
  | |- emits _ (for_each _ _) => apply emits_for_each; intros ? ?
  | |- emits _ (any_of _ _) => apply emits_any_of
  | |- emits _ (none_in _ _) => apply emits_none_in
  | |- emits _ (if ?b then _ else _) => destruct b
  end.

(** ** Which pass a message comes from *)

Ltac origin_of_message :=
  try reflexivity;
  match goal with
  | H : In _ operations |- _ =>
      unfold operations in H; simpl in H;
      repeat (destruct H as [<-|H]; [reflexivity|]); contradiction
  end.

Lemma structure_origin spec :
  emits (fun e => origin e = Some Structure) (structure_body spec).
Proof.
  unfold structure_body, version_check, info_check, paths_check.
  repeat emits_step; origin_of_message.
Qed.

Lemma paths_origin spec :
  emits (fun e => origin e = Some Paths) (paths_body spec).
Proof.
  unfold paths_body, path_checks, operation_checks.
  repeat emits_step; origin_of_message.
Qed.

Lemma schemas_origin spec :
  emits (fun e => origin e = Some Schemas) (schemas_body spec).
Proof. unfold schemas_body, schema_checks. repeat emits_step; origin_of_message. Qed.

Lemma security_origin spec :
  emits (fun e => origin e = Some Security) (security_body spec).
Proof. unfold security_body, scheme_checks. repeat emits_step; origin_of_message. Qed.

Lemma run_pass_origin p spec l :
  In p [Structure; Paths; Schemas; Security] ->
  run_pass p spec = Ok l -> Forall (fun e => origin e = Some p) l.
Proof.
  intros Hp H. simpl in Hp.
  destruct Hp as [<-|[<-|[<-|[<-|[]]]]]; simpl in H;
    eapply emits_returned; eauto
      using structure_origin, paths_origin, schemas_origin, security_origin.
Qed.

Lemma origin_disjoint p q l1 l2 e :
  Forall (fun e => origin e = Some p) l1 ->
  Forall (fun e => origin e = Some q) l2 ->
  p <> q -> In e l2 -> ~ In e l1.
Proof.
  intros H1 H2 Hpq He2 He1.
  rewrite Forall_forall in H1, H2.
  specialize (H1 e He1). specialize (H2 e He2). congruence.
Qed.

(** ** The severity filters of [main] *)

Lemma mem_In e l : Str.mem e l = true <-> In e l.
Proof.
  unfold Str.mem. rewrite existsb_exists. split.
  - intros [x [Hx He]]. apply String.eqb_eq in He. subst; assumption.
  - intros H. exists e. split; [assumption|apply String.eqb_refl].
Qed.

Lemma mem_app e l1 l2 : Str.mem e (l1 ++ l2) = Str.mem e l1 || Str.mem e l2.
Proof. apply existsb_app. Qed.

Lemma mem_filter e (f : string -> bool) l :
  In e l -> Str.mem e (filter f l) = f e.
Proof.
  intros He. destruct (f e) eqn:Hf.
  - apply mem_In, filter_In; auto.
  - destruct (Str.mem e (filter f l)) eqn:Hm; [|reflexivity].
    apply mem_In, filter_In in Hm. destruct Hm; congruence.
Qed.

(** When no message of the pass is already an error of an earlier pass, the
    membership test [e not in all_errors] is the negation of the error
    condition. *)
Lemma extend_filtered_pure p issues acc :
  (forall e, In e issues -> ~ In e (all_errors acc)) ->
  extend_filtered p issues acc =
  Findings (all_errors acc ++ filter (is_error p) issues)
           (all_warnings acc ++ filter (fun e => negb (is_error p e)) issues).
Proof.
  intros Hnew. unfold extend_filtered. do 2 f_equal.
  apply filter_ext_in. intros e He.
  rewrite mem_app, (mem_filter e _ issues He).
  destruct (Str.mem e (all_errors acc)) eqn:Hm; [|reflexivity].
  apply mem_In in Hm. destruct (Hnew e He Hm).
Qed.

Lemma filter_tagged (g : pass -> string -> bool) p l :
  map snd (filter (fun pe => g (fst pe) (snd pe)) (map (pair p) l)) = filter (g p) l.
Proof.
  induction l as [|e r IH]; simpl; [reflexivity|].
  destruct (g p e); simpl; rewrite IH; reflexivity.
Qed.

Lemma partition_permutation {A} (f : A -> bool) l :
  Permutation (filter f l ++ filter (fun x => negb (f x)) l) l.
Proof.
  induction l as [|x r IH]; simpl; [constructor|].
  destruct (f x); simpl.
  - constructor; assumption.
  - symmetry. apply Permutation_cons_app. symmetry. assumption.
Qed.

(** The run in closed form: the errors are the messages that meet the error
    condition of their pass, the warnings all the others. *)
Lemma run_validations_closed_form spec f :
  run_validations spec = Ok f ->
  exists raw,
    raw_findings spec = Ok raw /\
    all_errors f = map snd (filter raw_is_error raw) /\
    all_warnings f = map snd (filter (fun pe => negb (raw_is_error pe)) raw).
Proof.
  unfold run_validations, raw_findings, raw_is_error. simpl.
  destruct (validate_structure spec) as [s1|] eqn:E1; [|discriminate].
  destruct (validate_paths spec) as [s2|] eqn:E2; [|discriminate].
  destruct (validate_schemas spec) as [s3|] eqn:E3; [|discriminate].
  destruct (validate_security spec) as [s4|] eqn:E4; [|discriminate].
  destruct (validate_examples spec) as [s5|] eqn:E5; [|discriminate].
  destruct (validate_best_practices spec) as [s6|] eqn:E6; [|discriminate].
  simpl. intros H.
  assert (O1 := run_pass_origin Structure spec s1 (or_introl eq_refl) E1).
  assert (O2 := run_pass_origin Paths spec s2 (or_intror (or_introl eq_refl)) E2).
  assert (O3 := run_pass_origin Schemas spec s3
                  (or_intror (or_intror (or_introl eq_refl))) E3).
  assert (O4 := run_pass_origin Security spec s4
                  (or_intror (or_intror (or_intror (or_introl eq_refl)))) E4).
  assert (Fsub : forall p l, Forall (fun e => origin e = Some p) l ->
               Forall (fun e => origin e = Some p) (filter (is_error p) l)).
  { intros p l Hl. apply Forall_forall. intros e He. apply filter_In in He.
    rewrite Forall_forall in Hl. apply Hl, He. }
  rewrite (extend_filtered_pure Structure s1 no_findings) in H
    by (simpl; auto).
  rewrite (extend_filtered_pure Paths s2) in H.
  2:{ simpl. intros e He.
      apply (origin_disjoint Structure Paths _ s2); auto; discriminate. }
  rewrite (extend_filtered_pure Schemas s3) in H.
  2:{ simpl. intros e He Hin. apply in_app_or in Hin. revert He.
      destruct Hin as [Hin|Hin]; intros He; revert Hin.
      - apply (origin_disjoint Structure Schemas _ s3); auto; discriminate.
      - apply (origin_disjoint Paths Schemas _ s3); auto; discriminate. }
  rewrite (extend_filtered_pure Security s4) in H.
  2:{ simpl. intros e He Hin. apply in_app_or in Hin.
      destruct Hin as [Hin|Hin]; [apply in_app_or in Hin; destruct Hin as [Hin|Hin]|];
        revert Hin.
      - apply (origin_disjoint Structure Security _ s4); auto; discriminate.
      - apply (origin_disjoint Paths Security _ s4); auto; discriminate.
      - apply (origin_disjoint Schemas Security _ s4); auto; discriminate. }
  inversion H; subst f; clear H. simpl.
  eexists; split; [reflexivity|].
  rewrite !filter_app, !map_app.
  rewrite !(filter_tagged is_error).
  rewrite !(filter_tagged (fun p e => negb (is_error p e))).
  simpl.
  assert (N5 : forall l, filter (fun _ : string => false) l = []).
  { induction l; simpl; auto. }
  assert (T5 : forall l, filter (fun _ : string => true) l = l).
  { induction l; simpl; congruence. }
  change (is_error Examples) with (fun _ : string => false).
  change (is_error BestPractices) with (fun _ : string => false).
  simpl. rewrite !N5, !T5, !app_nil_r, <- !app_assoc. split; reflexivity.
Qed.

Lemma collect_In ps spec raw p e :
  collect ps spec = Ok raw -> In (p, e) raw ->
  exists l, run_pass p spec = Ok l /\ In e l.
Proof.
  revert raw. induction ps as [|q r IH]; intros raw H Hin.
  - inversion H; subst. destruct Hin.
  - simpl in H. destruct (run_pass q spec) as [l|] eqn:Hq; [|discriminate].
    simpl in H. destruct (collect r spec) as [rest|]; [|discriminate].
    inversion H; subst raw; clear H.
    apply in_app_or in Hin. destruct Hin as [Hin|Hin].
    + apply in_map_iff in Hin. destruct Hin as [x [Hx Hl]].
      inversion Hx; subst. exists l. auto.
    + apply (IH rest eq_refl Hin).
Qed.

Lemma collect_In_pass ps spec l p e :
  In p ps -> run_pass p spec = Ok l -> In e l ->
  forall raw, collect ps spec = Ok raw -> In (p, e) raw.
Proof.
  induction ps as [|q r IH]; intros Hp Hl He raw H; [destruct Hp|].
  simpl in H. destruct (run_pass q spec) as [lq|] eqn:Hq; [|discriminate].
  simpl in H. destruct (collect r spec) as [rest|] eqn:Hr; [|discriminate].
  inversion H; subst raw; clear H. apply in_or_app.
  destruct Hp as [->|Hp].
  - left. rewrite Hl in Hq. inversion Hq; subst. apply in_map. assumption.
  - right. apply (IH Hp Hl He). reflexivity.
Qed.

(** An error of a completed run is a message that some pass emitted and
    that meets the error condition of that pass. *)
Lemma error_of_run spec f e :
  run_validations spec = Ok f -> In e (all_errors f) ->
  exists p l, run_pass p spec = Ok l /\ In e l /\ is_error p e = true.
Proof.
  intros H Hin.
  destruct (run_validations_closed_form spec f H) as [raw [Hraw [He _]]].
  rewrite He in Hin. apply in_map_iff in Hin. destruct Hin as [[p e'] [He' Hin]].
  simpl in He'. subst e'. apply filter_In in Hin. destruct Hin as [Hin Herr].
  destruct (collect_In _ _ _ _ _ Hraw Hin) as [l [Hl Hel]].
  exists p, l. auto.
Qed.

(** A message that a pass emitted and that does not meet the error condition
    of that pass is a warning of the completed run. *)
Lemma warning_of_run spec f p l e :
  run_validations spec = Ok f -> run_pass p spec = Ok l -> In e l ->
  is_error p e = false -> In e (all_warnings f).
Proof.
  intros H Hl He Herr.
  destruct (run_validations_closed_form spec f H) as [raw [Hraw [_ Hw]]].
  rewrite Hw. apply in_map_iff. exists (p, e). split; [reflexivity|].
  apply filter_In. split.
  - apply (collect_In_pass
             [Structure; Paths; Schemas; Security; Examples; BestPractices]
             spec l p e); try assumption.
    destruct p; simpl; auto 10.
  - unfold raw_is_error. simpl. rewrite Herr. reflexivity.
Qed.

Lemma run_pass_completes spec f p :
  run_validations spec = Ok f -> exists l, run_pass p spec = Ok l.
Proof.
  unfold run_validations. intros H.
  destruct (validate_structure spec) as [s1|] eqn:E1; [|discriminate].
  destruct (validate_paths spec) as [s2|] eqn:E2; [|discriminate].
  destruct (validate_schemas spec) as [s3|] eqn:E3; [|discriminate].
  destruct (validate_security spec) as [s4|] eqn:E4; [|discriminate].
  destruct (validate_examples spec) as [s5|] eqn:E5; [|discriminate].
  destruct (validate_best_practices spec) as [s6|] eqn:E6; [|discriminate].
  destruct p; simpl; eauto.
Qed.

(** A message that only pass [p] can have emitted, and that does not meet
    the error condition of [p], is a warning of the completed run and not an
    error. *)
Lemma reported_as_warning spec f p l msg :
  run_validations spec = Ok f ->
  run_pass p spec = Ok l -> In msg l ->
  origin msg = Some p ->
  is_error p msg = false ->
  In msg (all_warnings f) /\ ~ In msg (all_errors f).
Proof.
  intros H Hl Hin Ho Herr. split.
  - apply (warning_of_run spec f p l); assumption.
  - intros He. destruct (error_of_run _ _ _ H He) as [q [lq [Hq [Hinq Hqe]]]].
    assert (Hfour : In q [Structure; Paths; Schemas; Security]).
    { destruct q; simpl; auto; discriminate Hqe. }
    assert (Hoq := run_pass_origin q spec lq Hfour Hq).
    rewrite Forall_forall in Hoq. specialize (Hoq msg Hinq).
    rewrite Ho in Hoq. inversion Hoq; subst q. congruence.
Qed.



(** ** Findings that the passes file as errors and [main] reports as warnings

    Each pass appends these messages to its [errors] list; the condition
    under which [main] keeps a message of the pass as an error does not match
    their wording, so the run lists them under the warnings and ends with
    status 0. *)

Lemma slash_msg_is_error path :
  is_error Paths (slash_msg path) =
  Str.contains "Missing" path && Str.contains "required" (Str.lower path).
Proof.
  unfold is_error, slash_msg. f_equal.
  - change (Str.contains "Missing" ("Path '" ++ path ++ "' must start with '/'"))
      with (Str.contains "Missing" (path ++ "' must start with '/'")).
    foreign_suffix. reflexivity.
  - change (Str.lower ("Path '" ++ path ++ "' must start with '/'"))
      with ("path '" ++ Str.lower (path ++ "' must start with '/'")).
    rewrite lower_app.
    change (Str.contains "required"
              ("path '" ++ Str.lower path ++ Str.lower "' must start with '/'"))
      with (Str.contains "required" (Str.lower path ++ "' must start with '/'")).
    foreign_suffix. reflexivity.
Qed.

Lemma missing_responses_msg_is_error method path :
  In method operations ->
  is_error Paths (missing_responses_msg method path) =
  Str.contains "required" (Str.lower path).
Proof.
  intros Hm. unfold is_error, missing_responses_msg.
  rewrite (skip_method_missing method Hm).
  rewrite (contains_app_r "Missing" path ": Missing 'responses'" eq_refl).
  rewrite (skip_method_required method Hm).
  rewrite lower_app. lower_literal. foreign_suffix. reflexivity.
Qed.

Lemma empty_responses_msg_is_error method path :
  In method operations ->
  is_error Paths (empty_responses_msg method path) =
  Str.contains "Missing" path && Str.contains "required" (Str.lower path).
Proof.
  intros Hm. unfold is_error, empty_responses_msg.
  rewrite (skip_method_missing method Hm).
  rewrite (skip_method_required method Hm).
  rewrite lower_app. lower_literal. do 2 foreign_suffix. reflexivity.
Qed.

Lemma api_key_msg_is_error scheme_name field :
  field = "name" \/ field = "in" ->
  is_error Security (api_key_msg scheme_name field) =
  Str.contains "Missing" scheme_name.
Proof.
  intros Hf. unfold is_error, api_key_msg.
  change (Str.contains "Missing"
            ("Security scheme '" ++ scheme_name ++ "': apiKey type requires '"
             ++ field ++ "'"))
    with (Str.contains "Missing"
            (scheme_name ++ "': apiKey type requires '" ++ field ++ "'")).
  change (Str.contains "requires"
            ("Security scheme '" ++ scheme_name ++ "': apiKey type requires '"
             ++ field ++ "'"))
    with (Str.contains "requires"
            (scheme_name ++ "': apiKey type requires '" ++ field ++ "'")).
  destruct Hf as [-> | ->].
  - cbn [append]. foreign_suffix.
    rewrite contains_app_r by reflexivity. apply andb_true_r.
  - cbn [append]. foreign_suffix.
    rewrite contains_app_r by reflexivity. apply andb_true_r.
Qed.

Lemma responses_msg_origin method path msg :
  In method operations ->
  msg = missing_responses_msg method path \/ msg = empty_responses_msg method path ->
  origin msg = Some Paths.
Proof.
  intros Hm Hmsg. unfold operations in Hm. simpl in Hm.
  destruct Hmsg as [-> | ->];
    repeat (destruct Hm as [<-|Hm]; [reflexivity|]); contradiction.
Qed.

Lemma operation_reports_responses path method o msg :
  (Py.lookup "responses" o = None /\ msg = missing_responses_msg method path) \/
  (exists r, Py.lookup "responses" o = Some r /\ Py.truthy r = false /\
             msg = empty_responses_msg method path) ->
  reports msg (operation_checks path method (VDict o)).
Proof.
  intros H. unfold operation_checks. cbn [Py.contains Py.getitem].
  destruct H as [[Hr ->]|[r [Hr [Ht ->]]]]; rewrite Hr, bind_lift_Ok.
  - apply reports_bind_l, reports_error.
  - apply reports_bind_l. rewrite bind_lift_Ok, Ht. apply reports_error.
Qed.

Lemma paths_reports_responses d paths path item method o msg :
  Py.lookup "paths" d = Some (VDict paths) ->
  In (path, VDict item) paths ->
  In method operations ->
  Py.lookup method item = Some (VDict o) ->
  (Py.lookup "responses" o = None /\ msg = missing_responses_msg method path) \/
  (exists r, Py.lookup "responses" o = Some r /\ Py.truthy r = false /\
             msg = empty_responses_msg method path) ->
  reports msg (paths_body (VDict d)).
Proof.
  intros Hp Hin Hm Ho Hr. unfold paths_body. cbn [Py.get]. rewrite Hp.
  rewrite bind_lift_Ok. cbn [Py.items]. rewrite bind_lift_Ok.
  apply (reports_for_each _ _ _ (path, VDict item) Hin).
  unfold path_checks. cbn [fst snd].
  apply reports_bind_r. intros _. apply reports_bind_r. intros has_operation.
  apply reports_bind_r. intros _.
  apply (reports_for_each _ _ _ method Hm).
  cbn [Py.contains Py.getitem]. rewrite Ho. rewrite !bind_lift_Ok.
  apply operation_reports_responses, Hr.
Qed.

Lemma paths_reports_slash d paths path item :
  Py.lookup "paths" d = Some (VDict paths) ->
  In (path, item) paths ->
  Str.startswith path "/" = false ->
  reports (slash_msg path) (paths_body (VDict d)).
Proof.
  intros Hp Hin Hs. unfold paths_body. cbn [Py.get]. rewrite Hp.
  rewrite bind_lift_Ok. cbn [Py.items]. rewrite bind_lift_Ok.
  apply (reports_for_each _ _ _ (path, item) Hin).
  unfold path_checks. cbn [fst snd]. rewrite Hs.
  apply reports_bind_l, reports_error.
Qed.

Lemma security_reports_api_key d components schemes scheme_name scheme field :
  Py.lookup "components" d = Some (VDict components) ->
  Py.lookup "securitySchemes" components = Some (VDict schemes) ->
  In (scheme_name, VDict scheme) schemes ->
  Py.lookup "type" scheme = Some (VStr "apiKey") ->
  field = "name" \/ field = "in" ->
  Py.lookup field scheme = None ->
  reports (api_key_msg scheme_name field) (security_body (VDict d)).
Proof.
  intros Hc Hs Hin Ht Hf Habsent. unfold security_body.
  cbn [Py.get]. rewrite Hc, bind_lift_Ok. cbn [Py.get]. rewrite Hs, bind_lift_Ok.
  apply reports_bind_r. intros _. cbv beta. cbn [Py.items]. rewrite bind_lift_Ok.
  apply (reports_for_each _ _ _ (scheme_name, VDict scheme) Hin).
  unfold scheme_checks. cbn [fst snd Py.contains Py.get]. rewrite Ht.
  rewrite !bind_lift_Ok. apply reports_bind_r. intros _. cbv beta.
  rewrite ?bind_lift_Ok.
  change (Py.eq_str (VStr "apiKey") "http") with false.
  change (Py.eq_str (VStr "apiKey") "apiKey") with true. cbv iota.
  destruct Hf as [-> | ->]; rewrite ?bind_lift_Ok; cbv beta; rewrite Habsent.
  - rewrite ?bind_lift_Ok. cbv beta. apply reports_bind_l, reports_error.
  - apply reports_bind_r. intros _.
    rewrite ?bind_lift_Ok. cbv beta. apply reports_error.
Qed.

(** C1: for every operation under a recognized method whose [responses] is
    absent, or present and empty, in a path whose name does not contain
    [required] in any case, and on every run that completes: the finding
    that the paths pass files as an error is among the warnings of the run
    and not among its errors. *)
Theorem missing_responses_reported_as_warning
    (d paths : list (string * value)) (path : string)
    (item : list (string * value)) (method : string)
    (o : list (string * value)) (msg : string) (f : findings) :
  Py.lookup "paths" d = Some (VDict paths) ->
  In (path, VDict item) paths ->
  In method operations ->
  Py.lookup method item = Some (VDict o) ->
  (Py.lookup "responses" o = None /\ msg = missing_responses_msg method path) \/
  (exists r, Py.lookup "responses" o = Some r /\ Py.truthy r = false /\
             msg = empty_responses_msg method path) ->
  Str.contains "required" (Str.lower path) = false ->
  run_validations (VDict d) = Ok f ->
  In msg (all_warnings f) /\ ~ In msg (all_errors f).
Proof.
  intros Hp Hin Hm Ho Hr Hreq H.
  destruct (run_pass_completes _ _ Paths H) as [l Hl].
  apply (reported_as_warning (VDict d) f Paths l msg H Hl).
  - apply (reports_returned msg (paths_body (VDict d))); [|exact Hl].
    apply (paths_reports_responses d paths path item method o msg); assumption.
  - apply (responses_msg_origin method path); [assumption|].
    destruct Hr as [[_ ->]|[r [_ [_ ->]]]]; auto.
  - destruct Hr as [[_ ->]|[r [_ [_ ->]]]].
    + rewrite missing_responses_msg_is_error; assumption.
    + rewrite empty_responses_msg_is_error by assumption.
      rewrite Hreq. apply andb_false_r.
Qed.

Lemma missing_responses_reported_as_warning_witness :
  let f := Findings []
             ("GET /users: Missing 'responses'"
              :: "GET /users: Missing 'summary' or 'description'"
              :: "GET /users: Missing 'operationId' (recommended)"
              :: no_security_warning :: standing_warnings) in
  In "GET /users: Missing 'responses'" (all_warnings f) /\
  ~ In "GET /users: Missing 'responses'" (all_errors f).
Proof.
  exact (missing_responses_reported_as_warning
           [("openapi", VStr "3.0.0"); Samples.info;
            ("paths", VDict [("/users", VDict [("get", VDict [])])])]
           [("/users", VDict [("get", VDict [])])] "/users"
           [("get", VDict [])] "get" [] (missing_responses_msg "get" "/users") _
           eq_refl (or_introl eq_refl) (or_introl eq_refl) eq_refl
           (or_introl (conj eq_refl eq_refl)) eq_refl eq_refl).
Defined.

(** The sample runs: the finding is filed under [errors] by the pass and
    listed under the warnings by the run, which ends with status 0; with a
    [responses] entry added (scenario B) the message is gone and the other
    findings are the same. *)
Example missing_responses_run :
  validate_paths Samples.doc_missing_responses =
    Ok ["GET /users: Missing 'responses'";
        "GET /users: Missing 'summary' or 'description'";
        "GET /users: Missing 'operationId' (recommended)"] /\
  paths_body Samples.doc_missing_responses =
    Ok (tt, (["GET /users: Missing 'responses'"],
             ["GET /users: Missing 'summary' or 'description'";
              "GET /users: Missing 'operationId' (recommended)"])) /\
  run_validations Samples.doc_missing_responses =
    Ok (Findings []
          ("GET /users: Missing 'responses'"
           :: "GET /users: Missing 'summary' or 'description'"
           :: "GET /users: Missing 'operationId' (recommended)"
           :: no_security_warning :: standing_warnings)) /\
  run_validations Samples.doc_empty_responses =
    Ok (Findings []
          ("GET /users: 'responses' is empty"
           :: "GET /users: Missing 'summary' or 'description'"
           :: "GET /users: Missing 'operationId' (recommended)"
           :: no_security_warning :: standing_warnings)) /\
  run_validations Samples.doc_scenario_b =
    Ok (Findings []
          ("GET /users: Missing 'summary' or 'description'"
           :: "GET /users: Missing 'operationId' (recommended)"
           :: no_security_warning :: standing_warnings)) /\
  exit_status (main (one_file Samples.doc_missing_responses) cli) = 0%Z.
Proof. repeat split; reflexivity. Qed.

Lemma paths_check_empty d :
  Py.lookup "paths" d = Some (VDict []) ->
  paths_check (VDict d) = error empty_paths_msg.
Proof. intros H. unfold paths_check. simpl. rewrite H. reflexivity. Qed.

Lemma structure_reports_empty_paths d s1 :
  Py.lookup "paths" d = Some (VDict []) ->
  validate_structure (VDict d) = Ok s1 -> In empty_paths_msg s1.
Proof.
  intros Hp H. unfold validate_structure, structure_body, returned in H.
  destruct (version_check (VDict d);;; info_check (VDict d);;; paths_check (VDict d))
    as [[[] [es ws]]|] eqn:Hb; [|discriminate].
  inversion H; subst s1; clear H.
  apply bind_Ok in Hb. destruct Hb as [[] [e1 [w1 [e2 [w2 [_ [Hb [-> ->]]]]]]]].
  apply bind_Ok in Hb. destruct Hb as [[] [e3 [w3 [e4 [w4 [_ [Hb [-> ->]]]]]]]].
  rewrite (paths_check_empty d Hp) in Hb. inversion Hb; subst.
  apply in_or_app. left. apply in_or_app. right. apply in_or_app. right.
  left. reflexivity.
Qed.

(** C2: on every document whose [paths] is present and empty, and on which
    the run completes, the empty-paths finding that the structure pass files
    as an error has severity Warning: it is among the warnings of the run and
    not among its errors. *)
Theorem empty_paths_reported_as_warning (d : list (string * value)) (f : findings) :
  Py.lookup "paths" d = Some (VDict []) ->
  run_validations (VDict d) = Ok f ->
  classify Structure empty_paths_msg = Warning /\
  In empty_paths_msg (all_warnings f) /\
  ~ In empty_paths_msg (all_errors f).
Proof.
  intros Hp H. split; [reflexivity|]. split.
  - unfold run_validations in H.
    destruct (validate_structure (VDict d)) as [s1|] eqn:E1; [|discriminate].
    apply (warning_of_run (VDict d) f Structure s1); auto.
    + unfold run_validations. rewrite E1. exact H.
    + apply (structure_reports_empty_paths d); assumption.
  - intros Hin. destruct (error_of_run _ _ _ H Hin) as [p [l [Hl [Hel Herr]]]].
    destruct p; try discriminate Herr;
      match type of Hl with
      | run_pass ?q _ = _ =>
          assert (Ho : Forall (fun e => origin e = Some q) l)
            by (apply (run_pass_origin q (VDict d)); [simpl; auto 10|exact Hl])
      end;
      rewrite Forall_forall in Ho; discriminate (Ho _ Hel).
Qed.

Lemma empty_paths_reported_as_warning_witness :
  In empty_paths_msg (all_warnings
    (Findings [] (empty_paths_msg :: no_security_warning :: standing_warnings))) /\
  ~ In empty_paths_msg (all_errors
    (Findings [] (empty_paths_msg :: no_security_warning :: standing_warnings))).
Proof.
  exact (proj2 (empty_paths_reported_as_warning
                  [("openapi", VStr "3.0.0"); Samples.info; ("paths", VDict [])]
                  (Findings [] (empty_paths_msg :: no_security_warning
                                :: standing_warnings))
                  eq_refl eq_refl)).
Defined.

(** With nothing else wrong in the document, the run is valid with warnings
    and the exit status is 0. *)
Example empty_paths_run :
  validate_structure Samples.doc_empty_paths = Ok [empty_paths_msg] /\
  main (one_file Samples.doc_empty_paths) cli =
    ValidWithWarnings
      (Findings [] (empty_paths_msg :: no_security_warning :: standing_warnings)) /\
  exit_status (main (one_file Samples.doc_empty_paths) cli) = 0%Z.
Proof. repeat split; reflexivity. Qed.

(** C3: for every [apiKey] scheme whose name does not contain [Missing], and
    on every run that completes: the absence of [name] and the absence of
    [in] are each reported, independently, by a finding that the security
    pass files as an error and that is among the warnings of the run and not
    among its errors. *)
Theorem api_key_fields_reported_as_warnings
    (d components schemes : list (string * value)) (scheme_name : string)
    (scheme : list (string * value)) (field : string) (f : findings) :
  Py.lookup "components" d = Some (VDict components) ->
  Py.lookup "securitySchemes" components = Some (VDict schemes) ->
  In (scheme_name, VDict scheme) schemes ->
  Py.lookup "type" scheme = Some (VStr "apiKey") ->
  field = "name" \/ field = "in" ->
  Py.lookup field scheme = None ->
  Str.contains "Missing" scheme_name = false ->
  run_validations (VDict d) = Ok f ->
  In (api_key_msg scheme_name field) (all_warnings f) /\
  ~ In (api_key_msg scheme_name field) (all_errors f).
Proof.
  intros Hc Hs Hin Ht Hf Habsent Hname H.
  destruct (run_pass_completes _ _ Security H) as [l Hl].
  apply (reported_as_warning (VDict d) f Security l _ H Hl).
  - apply (reports_returned _ (security_body (VDict d))); [|exact Hl].
    apply (security_reports_api_key d components schemes scheme_name scheme field);
      assumption.
  - reflexivity.
  - rewrite api_key_msg_is_error; assumption.
Qed.

Lemma api_key_fields_reported_as_warnings_witness :
  let f := Findings []
             ("Security scheme 'myApiKey': apiKey type requires 'name'"
              :: "Security scheme 'myApiKey': apiKey type requires 'in'"
              :: standing_warnings) in
  (In (api_key_msg "myApiKey" "name") (all_warnings f) /\
   ~ In (api_key_msg "myApiKey" "name") (all_errors f)) /\
  (In (api_key_msg "myApiKey" "in") (all_warnings f) /\
   ~ In (api_key_msg "myApiKey" "in") (all_errors f)).
Proof.
  split.
  - exact (api_key_fields_reported_as_warnings
             _ [("securitySchemes",
                 VDict [("myApiKey", VDict [("type", VStr "apiKey")])])]
             [("myApiKey", VDict [("type", VStr "apiKey")])] "myApiKey"
             [("type", VStr "apiKey")] "name" _
             (eq_refl : Py.lookup "components"
                          match Samples.doc_api_key with VDict d => d | _ => [] end
                        = _)
             eq_refl (or_introl eq_refl) eq_refl (or_introl eq_refl) eq_refl
             eq_refl eq_refl).
  - exact (api_key_fields_reported_as_warnings
             _ [("securitySchemes",
                 VDict [("myApiKey", VDict [("type", VStr "apiKey")])])]
             [("myApiKey", VDict [("type", VStr "apiKey")])] "myApiKey"
             [("type", VStr "apiKey")] "in" _
             (eq_refl : Py.lookup "components"
                          match Samples.doc_api_key with VDict d => d | _ => [] end
                        = _)
             eq_refl (or_introl eq_refl) eq_refl (or_intror eq_refl) eq_refl
             eq_refl eq_refl).
Defined.

(** Scenario C: both findings are filed under [errors] by the pass and
    listed under the warnings by the run, which ends with status 0. *)
Example api_key_run :
  security_body Samples.doc_api_key =
    Ok (tt, (["Security scheme 'myApiKey': apiKey type requires 'name'";
              "Security scheme 'myApiKey': apiKey type requires 'in'"], [])) /\
  run_validations Samples.doc_api_key =
    Ok (Findings []
          ("Security scheme 'myApiKey': apiKey type requires 'name'"
           :: "Security scheme 'myApiKey': apiKey type requires 'in'"
           :: standing_warnings)) /\
  exit_status (main (one_file Samples.doc_api_key) cli) = 0%Z.
Proof. repeat split; reflexivity. Qed.

(** C6: for every path key that does not start with a slash and does not
    contain both [Missing] and, in any case, [required], and on every run
    that completes: the finding that the paths pass files as an error is
    among the warnings of the run and not among its errors. *)
Theorem relative_path_reported_as_warning
    (d paths : list (string * value)) (path : string) (item : value)
    (f : findings) :
  Py.lookup "paths" d = Some (VDict paths) ->
  In (path, item) paths ->
  Str.startswith path "/" = false ->
  Str.contains "Missing" path && Str.contains "required" (Str.lower path) = false ->
  run_validations (VDict d) = Ok f ->
  In (slash_msg path) (all_warnings f) /\ ~ In (slash_msg path) (all_errors f).
Proof.
  intros Hp Hin Hs Hc H.
  destruct (run_pass_completes _ _ Paths H) as [l Hl].
  apply (reported_as_warning (VDict d) f Paths l _ H Hl).
  - apply (reports_returned _ (paths_body (VDict d))); [|exact Hl].
    apply (paths_reports_slash d paths path item); assumption.
  - reflexivity.
  - rewrite slash_msg_is_error. assumption.
Qed.

Lemma relative_path_reported_as_warning_witness :
  let f := Findings []
             ("Path 'users' must start with '/'"
              :: no_security_warning :: standing_warnings) in
  In (slash_msg "users") (all_warnings f) /\
  ~ In (slash_msg "users") (all_errors f).
Proof.
  exact (relative_path_reported_as_warning
           match Samples.doc_relative_path with VDict d => d | _ => [] end
           _ "users" _ _
           eq_refl (or_introl eq_refl) eq_refl eq_refl eq_refl).
Defined.

(** The sample run: the finding is filed under [errors] by the pass and
    listed under the warnings by the run, which ends with status 0. *)
Example relative_path_run :
  paths_body Samples.doc_relative_path =
    Ok (tt, (["Path 'users' must start with '/'"], [])) /\
  run_validations Samples.doc_relative_path =
    Ok (Findings []
          ("Path 'users' must start with '/'"
           :: no_security_warning :: standing_warnings)) /\
  exit_status (main (one_file Samples.doc_relative_path) cli) = 0%Z.
Proof. repeat split; reflexivity. Qed.

(** ** Exit status *)

(** The status of a run with a file argument. *)
Lemma exit_status_main (parse_file : string -> value + string)
    (prog spec_file : string) (rest : list string) :
  exit_status (main parse_file (prog :: spec_file :: rest)) =
  match parse_file spec_file with
  | inr _ => 1%Z
  | inl spec =>
      match run_validations spec with
      | Raise _ => 1%Z
      | Ok f => match all_errors f with [] => 0%Z | _ :: _ => 1%Z end
      end
  end.
Proof.
  simpl. unfold load_spec.
  destruct (parse_file spec_file) as [spec|msg]; [|reflexivity].
  destruct (run_validations spec) as [[[|e es] [|w ws]]|e]; reflexivity.
Qed.



(** ** The verb-in-path rule *)

Lemma lower_char_slash c : Ascii.eqb (Str.lower_char c) "/" = Ascii.eqb c "/".
Proof. destruct c as [[] [] [] [] [] [] [] []]; reflexivity. Qed.

(** Lowering the path and splitting it is splitting it and lowering the
    segments. *)
Lemma split_lower s :
  Str.split "/" (Str.lower s) = map Str.lower (Str.split "/" s).
Proof.
  induction s as [|c r IH]; [reflexivity|].
  change (Str.lower (String c r)) with (String (Str.lower_char c) (Str.lower r)).
  simpl Str.split. rewrite lower_char_slash.
  destruct (Ascii.eqb c "/").
  - simpl. rewrite IH. reflexivity.
  - rewrite IH. destruct (Str.split "/" r); reflexivity.
Qed.

(** C7 (as amended): the verb-in-path rule emits one warning for each verb of
    the vocabulary that equals, case-insensitively and as a whole segment, a
    segment of the path: at least one when a segment is a verb, several when
    the segments hold several different verbs, none when no segment is a
    verb. *)
Theorem verb_rule_one_warning_per_verb (path : string) :
  let segments := map Str.lower (Str.split "/" path) in
  let matched := filter (fun verb => Str.mem verb segments) verbs in
  verb_rule path = Ok (tt, ([], repeat (verb_msg path) (length matched))) /\
  (matched = [] <->
   forall seg, In seg (Str.split "/" path) -> ~ In (Str.lower seg) verbs).
Proof.
  cbv zeta. split.
  - unfold verb_rule. cbv zeta. rewrite split_lower.
    apply for_each_when_warning.
  - split.
    + intros Hnil seg Hseg Hverb.
      assert (Hin : In (Str.lower seg)
                (filter (fun verb => Str.mem verb (map Str.lower (Str.split "/" path)))
                        verbs)).
      { apply filter_In. split; [assumption|].
        apply mem_In, in_map, Hseg. }
      rewrite Hnil in Hin. destruct Hin.
    + intros Hnone.
      destruct (filter _ verbs) as [|verb rest] eqn:Hf; [reflexivity|].
      assert (Hin : In verb (verb :: rest)) by (left; reflexivity).
      rewrite <- Hf in Hin. apply filter_In in Hin. destruct Hin as [Hv Hm].
      apply mem_In, in_map_iff in Hm. destruct Hm as [seg [Hl Hseg]].
      subst verb. destruct (Hnone seg Hseg Hv).
Qed.

(** C7, as stated, fails: [/get/list] has segments that are verbs, and the
    rule emits two warnings for the path, not one. *)
Lemma verb_rule_counterexample :
  (exists seg, In seg (Str.split "/" "/get/list") /\ In (Str.lower seg) verbs) /\
  verb_rule "/get/list" =
    Ok (tt, ([], [verb_msg "/get/list"; verb_msg "/get/list"])) /\
  verb_rule "/get/list" <> Ok (tt, ([], [verb_msg "/get/list"])).
Proof.
  split; [exists "get"; split; simpl; auto|].
  split; [reflexivity|discriminate].
Qed.

(** The boundary of scenario D: a segment that only starts with a verb is
    no match. *)
Example verb_rule_getUsers : verb_rule "/getUsers" = Ok (tt, ([], [])).
Proof. reflexivity. Qed.

Example verb_rule_upper_case :
  verb_rule "/users/GET" = Ok (tt, ([], [verb_msg "/users/GET"])).
Proof. reflexivity. Qed.

(** ** Example coverage *)

Lemma none_in_examples obj :
  is_container obj = true ->
  none_in ["example"; "examples"] obj = ret (lacks_example obj).
Proof.
  unfold lacks_example, has_key.
  destruct obj; try discriminate; intros _; simpl.
  - destruct (Str.contains "example" s); [reflexivity|].
    destruct (Str.contains "examples" s); reflexivity.
  - destruct (existsb (Py.is_str "example") l); [reflexivity|].
    destruct (existsb (Py.is_str "examples") l); reflexivity.
  - destruct (Py.lookup "example" d); [reflexivity|].
    destruct (Py.lookup "examples" d); reflexivity.
Qed.

Lemma content_checks_closed msg holder :
  content_ok holder = true ->
  (content <- lift (Py.get holder "content" empty_dict) ;;
   content_checks msg content) = Ok (tt, ([], content_warnings msg holder)).
Proof.
  intros Hok. destruct holder as [| | | | | |h]; try discriminate.
  unfold content_warnings, field, Py.get. unfold content_ok in Hok.
  assert (Hc : forall c, forallb (fun entry => is_container (snd entry)) c = true ->
     content_checks msg (VDict c) = Ok (tt, ([], repeat msg (bare_entries c)))).
  { intros c Hall. unfold content_checks. simpl lift. rewrite bind_ret_l.
    unfold bare_entries. rewrite <- flat_map_repeat.
    apply for_each_flat_map. intros entry Hin.
    rewrite forallb_forall in Hall.
    rewrite (none_in_examples _ (Hall entry Hin)), bind_ret_l.
    destruct (lacks_example (snd entry)); reflexivity. }
  destruct (Py.lookup "content" h) as [[| | | | | |c]|]; try discriminate.
  - change (lift (Ok (VDict c))) with (ret (VDict c)). rewrite bind_ret_l.
    rewrite (Hc c Hok). reflexivity.
  - reflexivity.
Qed.

Lemma example_checks_closed path method operation :
  operation_ok operation = true ->
  example_checks path method operation =
  Ok (tt, ([], operation_example_warnings path method operation)).
Proof.
  intros Hok. destruct operation as [| | | | | |o]; try discriminate.
  unfold operation_ok in Hok. apply andb_true_iff in Hok. destruct Hok as [Hb Hr].
  unfold example_checks, operation_example_warnings, has_key, field.
  cbn [Py.contains Py.getitem Py.get]. rewrite bind_lift_Ok.
  apply bind_warnings with (a := tt).
  - destruct (Py.lookup "requestBody" o) as [request_body|]; [|reflexivity].
    rewrite bind_lift_Ok. apply content_checks_closed, Hb.
  - destruct (Py.lookup "responses" o) as [[| | | | | |rs]|]; try discriminate.
    + rewrite bind_lift_Ok. cbn [Py.items]. rewrite bind_lift_Ok.
      apply for_each_flat_map. intros entry Hin. cbv zeta.
      rewrite forallb_forall in Hr. specialize (Hr entry Hin).
      destruct (Str.startswith (fst entry) "2"); [|reflexivity].
      apply content_checks_closed, Hr.
    + reflexivity.
Qed.

Lemma path_item_closed path path_item :
  path_item_ok path_item = true ->
  for_each example_operations (fun method =>
    present <- lift (Py.contains method path_item) ;;
    if present then
      operation <- lift (Py.getitem path_item method) ;;
      example_checks path method operation
    else ret tt) = Ok (tt, ([], path_example_warnings path path_item)).
Proof.
  intros Hok. destruct path_item as [| | | | | |i]; try discriminate.
  unfold path_item_ok in Hok. rewrite forallb_forall in Hok.
  apply for_each_flat_map. intros method Hin. specialize (Hok method Hin).
  unfold has_key, field. cbn [Py.contains Py.getitem]. rewrite bind_lift_Ok.
  destruct (Py.lookup method i) as [operation|]; [|reflexivity].
  rewrite bind_lift_Ok. apply example_checks_closed, Hok.
Qed.

(** On a document of the expected shape the pass returns, and returns the
    warnings of [example_warnings]. *)
Lemma validate_examples_closed spec :
  examples_ok spec = true -> validate_examples spec = Ok (example_warnings spec).
Proof.
  intros Hok. destruct spec as [| | | | | |d]; try discriminate.
  unfold examples_ok in Hok.
  unfold validate_examples, examples_body, example_warnings, field, Py.get.
  destruct (Py.lookup "paths" d) as [[| | | | | |ps]|]; try discriminate.
  - rewrite bind_lift_Ok. cbn [Py.items]. rewrite bind_lift_Ok.
    rewrite forallb_forall in Hok.
    rewrite (for_each_flat_map ps _
               (fun entry => path_example_warnings (fst entry) (snd entry))).
    + reflexivity.
    + intros entry Hin. cbv zeta. apply path_item_closed, Hok, Hin.
  - reflexivity.
Qed.




(** ** Determinism *)

(** C9: two runs of the validation on the same document give the same
    result, and when they complete the same ordered lists of errors and of
    warnings. *)
Theorem run_twice_identical (spec : value) :
  let first := run_validations spec in
  let second := run_validations spec in
  first = second /\
  forall f1 f2, first = Ok f1 -> second = Ok f2 ->
    all_errors f1 = all_errors f2 /\ all_warnings f1 = all_warnings f2.
Proof.
  cbv zeta. split; [reflexivity|].
  intros f1 f2 H1 H2. rewrite H1 in H2. inversion H2. split; reflexivity.
Qed.

(** ** The version test of the structure pass *)

Lemma version_check_raises d v :
  Py.lookup "openapi" d = Some v -> (forall s, v <> VStr s) ->
  version_check (VDict d) = Raise AttributeError.
Proof.
  intros Hv Hns. unfold version_check. simpl. rewrite Hv. simpl.
  destruct v; try reflexivity. destruct (Hns s eq_refl).
Qed.

Lemma version_check_string d s :
  Py.lookup "openapi" d = Some (VStr s) ->
  version_check (VDict d) =
  if Str.startswith s "3.0" then ret tt
  else error ("Unsupported OpenAPI version: " ++ s).
Proof.
  intros Hv. unfold version_check. simpl. rewrite Hv. simpl.
  destruct (Str.startswith s "3.0"); reflexivity.
Qed.

Lemma rest_of_structure_not_unsupported spec :
  emits (fun e => substring 0 1 e <> "U") (info_check spec ;;; paths_check spec).
Proof.
  unfold info_check, paths_check. repeat emits_step; discriminate.
Qed.

(** C10: when the [openapi] field of a document is present and is not a
    string, the structure pass raises [AttributeError] at the prefix test and
    returns no finding list; whenever the pass returns, the field is a
    string, and the unsupported-version error is in the list exactly when
    that string does not start with 3.0. *)
Theorem version_test_needs_a_string (d : list (string * value)) (v : value) :
  Py.lookup "openapi" d = Some v ->
  ((forall s, v <> VStr s) -> validate_structure (VDict d) = Raise AttributeError) /\
  (forall errs, validate_structure (VDict d) = Ok errs ->
     exists s, v = VStr s /\
       (In ("Unsupported OpenAPI version: " ++ s) errs <->
        Str.startswith s "3.0" = false)).
Proof.
  intros Hv. split.
  - intros Hns. unfold validate_structure, structure_body.
    rewrite (bind_Raise _ _ AttributeError (version_check_raises d v Hv Hns)).
    reflexivity.
  - intros errs Hret.
    assert (Hstr : exists s, v = VStr s).
    { destruct v; try (exfalso;
        unfold validate_structure, structure_body in Hret;
        rewrite (bind_Raise _ _ AttributeError) in Hret;
        [discriminate|apply (version_check_raises d _ Hv); discriminate]).
      exists s. reflexivity. }
    destruct Hstr as [s ->]. exists s. split; [reflexivity|].
    unfold validate_structure, structure_body in Hret.
    rewrite (version_check_string d s Hv) in Hret.
    destruct (info_check (VDict d) ;;; paths_check (VDict d))
      as [[[] [es ws]]|] eqn:Hrest.
    2:{ destruct (Str.startswith s "3.0");
          discriminate Hret. }
    destruct (rest_of_structure_not_unsupported (VDict d) tt es ws Hrest)
      as [Hes Hws].
    assert (Hnot : ~ In ("Unsupported OpenAPI version: " ++ s) (es ++ ws)).
    { intros Hin. apply in_app_or in Hin. rewrite Forall_forall in Hes, Hws.
      destruct Hin as [Hin|Hin]; [apply (Hes _ Hin)|apply (Hws _ Hin)];
        reflexivity. }
    destruct (Str.startswith s "3.0");
      inversion Hret; subst errs; clear Hret.
    + split; [intros Hin; destruct (Hnot Hin)|discriminate].
    + split; [reflexivity|]. intros _. left. reflexivity.
Qed.

Lemma version_test_needs_a_string_witness :
  validate_structure Samples.doc_numeric_version = Raise AttributeError.
Proof.
  refine (proj1 (version_test_needs_a_string
                   [("openapi", VFloat (QArith_base.Qmake 3 1)); Samples.info;
                    ("paths", VDict [("/users", VDict [])])]
                   (VFloat (QArith_base.Qmake 3 1)) eq_refl) _).
  intros s. discriminate.
Defined.

(** * Further properties *)

(** ** The structure pass and documents that are not mappings *)

Lemma version_check_closed d :
  version_check (VDict d) =
  match Py.lookup "openapi" d with
  | None => error "Missing required field: 'openapi'"
  | Some (VStr v) =>
      if Str.startswith v "3.0" then ret tt
      else error ("Unsupported OpenAPI version: " ++ v)
  | Some _ => Raise AttributeError
  end.
Proof.
  unfold version_check. cbn [Py.contains Py.getitem].
  destruct (Py.lookup "openapi" d) as [v|]; [|reflexivity].
  rewrite !bind_lift_Ok. cbn [negb].
  destruct v; try reflexivity.
  cbn [Py.str_method]. rewrite bind_lift_Ok.
  destruct (Str.startswith s "3.0"); reflexivity.
Qed.

Lemma paths_check_closed d :
  paths_check (VDict d) =
  match Py.lookup "paths" d with
  | None => error "Missing required field: 'paths'"
  | Some paths => if Py.truthy paths then ret tt else error empty_paths_msg
  end.
Proof.
  unfold paths_check. cbn [Py.contains Py.getitem].
  destruct (Py.lookup "paths" d) as [v|]; [|reflexivity].
  rewrite !bind_lift_Ok. cbn [negb]. destruct (Py.truthy v); reflexivity.
Qed.

Lemma info_check_closed d :
  info_check (VDict d) =
  match Py.lookup "info" d with
  | None => error "Missing required field: 'info'"
  | Some info =>
      has_title <- lift (Py.contains "title" info) ;;
      when (negb has_title) (error "Missing required field: 'info.title'") ;;;
      has_version <- lift (Py.contains "version" info) ;;
      when (negb has_version) (error "Missing required field: 'info.version'")
  end.
Proof.
  unfold info_check. cbn [Py.contains Py.getitem].
  destruct (Py.lookup "info" d) as [v|]; [|reflexivity].
  rewrite !bind_lift_Ok. reflexivity.
Qed.

Lemma returned_nil (m : M unit) :
  returned m = Ok [] <-> m = Ok (tt, ([], [])).
Proof.
  split.
  - destruct m as [[[] [es ws]]|]; [|discriminate]. simpl. intros H.
    inversion H as [H0]. apply app_eq_nil in H0. destruct H0; subst. reflexivity.
  - intros ->. reflexivity.
Qed.

Lemma bind_silent {A B} (m : M A) (k : A -> M B) b :
  bind m k = Ok (b, ([], [])) <->
  exists a, m = Ok (a, ([], [])) /\ k a = Ok (b, ([], [])).
Proof.
  split.
  - intros H. apply bind_Ok in H.
    destruct H as [a [e1 [w1 [e2 [w2 [Hm [Hk [He Hw]]]]]]]].
    symmetry in He, Hw. apply app_eq_nil in He, Hw.
    destruct He, Hw; subst. eauto.
  - intros [a [-> Hk]]. unfold bind. rewrite Hk. reflexivity.
Qed.

(** X1: on a mapping document the structure pass returns no finding exactly
    when [openapi] is a string that starts with 3.0, [info] is present and
    holds [title] and [version], and [paths] is present and not empty. *)
Theorem structure_clean_iff (d : list (string * value)) :
  validate_structure (VDict d) = Ok [] <->
  (exists v, Py.lookup "openapi" d = Some (VStr v) /\ Str.startswith v "3.0" = true) /\
  (exists info, Py.lookup "info" d = Some info /\
                Py.contains "title" info = Ok true /\
                Py.contains "version" info = Ok true) /\
  (exists paths, Py.lookup "paths" d = Some paths /\ Py.truthy paths = true).
Proof.
  unfold validate_structure, structure_body.
  rewrite returned_nil, version_check_closed, info_check_closed, paths_check_closed.
  split.
  - intros H. apply bind_silent in H. destruct H as [[] [Hv H]].
    apply bind_silent in H. destruct H as [[] [Hi Hp]].
    repeat split.
    + destruct (Py.lookup "openapi" d) as [[| | | |v| |]|]; try discriminate Hv.
      exists v. split; [reflexivity|].
      destruct (Str.startswith v "3.0"); [reflexivity|discriminate Hv].
    + destruct (Py.lookup "info" d) as [info|]; [|discriminate Hi].
      exists info. split; [reflexivity|].
      apply bind_silent in Hi. destruct Hi as [t [Ht Hi]].
      apply bind_silent in Hi. destruct Hi as [[] [Hwt Hi]].
      apply bind_silent in Hi. destruct Hi as [v [Hv' Hwv]].
      destruct (Py.contains "title" info) as [[]|]; try discriminate Ht;
        inversion Ht; subst t; try discriminate Hwt.
      destruct (Py.contains "version" info) as [[]|]; try discriminate Hv';
        inversion Hv'; subst v; try discriminate Hwv.
      split; reflexivity.
    + destruct (Py.lookup "paths" d) as [paths|]; [|discriminate Hp].
      exists paths. split; [reflexivity|].
      destruct (Py.truthy paths); [reflexivity|discriminate Hp].
  - intros [[v [Hv Hs]] [[info [Hi [Ht Hver]]] [paths [Hp Htr]]]].
    rewrite Hv, Hs, Hi, Ht, Hver, Hp, Htr. reflexivity.
Qed.

Lemma error_in_run spec f p l e :
  run_validations spec = Ok f -> run_pass p spec = Ok l -> In e l ->
  is_error p e = true -> In e (all_errors f).
Proof.
  intros H Hl He Herr.
  destruct (run_validations_closed_form spec f H) as [raw [Hraw [Hes _]]].
  rewrite Hes. apply in_map_iff. exists (p, e). split; [reflexivity|].
  apply filter_In. split.
  - apply (collect_In_pass
             [Structure; Paths; Schemas; Security; Examples; BestPractices]
             spec l p e); try assumption.
    destruct p; simpl; auto 10.
  - exact Herr.
Qed.

Lemma structure_findings_severity spec :
  emits (fun e => e = empty_paths_msg \/ is_error Structure e = true)
        (structure_body spec).
Proof.
  unfold structure_body, version_check, info_check, paths_check.
  repeat emits_step;
    first [ left; reflexivity
          | right; reflexivity
          | right; apply orb_true_iff; right; reflexivity ].
Qed.

(** X2: every finding of the structure pass other than the empty-paths one
    is an error of the completed run, and the process then exits with
    status 1. *)
Theorem structure_findings_are_errors (spec : value) (f : findings)
    (l : list string) (e : string) :
  run_validations spec = Ok f ->
  validate_structure spec = Ok l ->
  In e l -> e <> empty_paths_msg ->
  In e (all_errors f) /\
  forall parse_file prog spec_file rest,
    parse_file spec_file = inl spec ->
    exit_status (main parse_file (prog :: spec_file :: rest)) = 1%Z.
Proof.
  intros H Hl He Hne.
  assert (Herr : In e (all_errors f)).
  { apply (error_in_run spec f Structure l e H Hl He).
    assert (Hsev := emits_returned _ _ _ (structure_findings_severity spec) Hl).
    rewrite Forall_forall in Hsev. destruct (Hsev e He); [contradiction|assumption]. }
  split; [assumption|].
  intros parse_file prog spec_file rest Hp.
  rewrite exit_status_main, Hp, H.
  destruct (all_errors f); [destruct Herr|reflexivity].
Qed.

Lemma structure_findings_are_errors_witness :
  In "Unsupported OpenAPI version: 2.0" (all_errors Samples.mixed_findings).
Proof.
  exact (proj1 (structure_findings_are_errors
                  Samples.doc_mixed Samples.mixed_findings
                  ["Unsupported OpenAPI version: 2.0";
                   "Missing required field: 'info.title'"]
                  "Unsupported OpenAPI version: 2.0"
                  eq_refl eq_refl (or_introl eq_refl)
                  (fun H => ltac:(discriminate H)))).
Defined.

Lemma paths_needs_mapping spec :
  (forall d, spec <> VDict d) -> validate_paths spec = Raise AttributeError.
Proof.
  intros H. destruct spec; try reflexivity. destruct (H d eq_refl).
Qed.

(** X3: a document that is not a mapping never completes the run: a scalar
    (an empty YAML file gives [None]) makes the structure pass raise
    [TypeError], any other non-mapping makes the paths pass raise
    [AttributeError], and the process exits with status 1. *)
Theorem non_mapping_document_raises (spec : value) :
  (forall d, spec <> VDict d) ->
  (is_container spec = false -> validate_structure spec = Raise TypeError) /\
  validate_paths spec = Raise AttributeError /\
  (exists e, run_validations spec = Raise e) /\
  forall parse_file prog spec_file rest,
    parse_file spec_file = inl spec ->
    exit_status (main parse_file (prog :: spec_file :: rest)) = 1%Z.
Proof.
  intros H.
  assert (Hp := paths_needs_mapping spec H).
  assert (Hr : exists e, run_validations spec = Raise e).
  { unfold run_validations. destruct (validate_structure spec); simpl; eauto.
    rewrite Hp. simpl. eauto. }
  repeat split; try assumption.
  - intros Hc. destruct spec; try discriminate Hc; reflexivity.
  - intros parse_file prog spec_file rest Hf.
    rewrite exit_status_main, Hf. destruct Hr as [e ->]. reflexivity.
Qed.

Lemma non_mapping_document_raises_witness :
  validate_structure VNone = Raise TypeError /\
  run_validations VNone = Raise TypeError.
Proof.
  destruct (non_mapping_document_raises VNone
              (fun d H => ltac:(discriminate H))) as [Hs [_ [_ _]]].
  split; [exact (Hs eq_refl)|reflexivity].
Defined.

(** X4: when [paths] is present and is not a mapping (for instance null),
    the paths pass and the examples pass raise [AttributeError] and the run
    does not complete, whatever the structure pass found. *)
Theorem paths_must_be_a_mapping (d : list (string * value)) (v : value) :
  Py.lookup "paths" d = Some v ->
  (forall ps, v <> VDict ps) ->
  validate_paths (VDict d) = Raise AttributeError /\
  validate_examples (VDict d) = Raise AttributeError /\
  exists e, run_validations (VDict d) = Raise e.
Proof.
  intros Hv Hn.
  assert (Hp : validate_paths (VDict d) = Raise AttributeError).
  { unfold validate_paths, paths_body. cbn [Py.get]. rewrite Hv, bind_lift_Ok.
    destruct v; try reflexivity. destruct (Hn d0 eq_refl). }
  repeat split; [exact Hp| |].
  - unfold validate_examples, examples_body. cbn [Py.get]. rewrite Hv, bind_lift_Ok.
    destruct v; try reflexivity. destruct (Hn d0 eq_refl).
  - unfold run_validations. destruct (validate_structure (VDict d)); simpl; eauto.
    rewrite Hp. simpl. eauto.
Qed.

Lemma paths_must_be_a_mapping_witness :
  validate_structure (VDict [("paths", VNone)]) =
    Ok ["Missing required field: 'openapi'"; "Missing required field: 'info'";
        empty_paths_msg] /\
  validate_paths (VDict [("paths", VNone)]) = Raise AttributeError.
Proof.
  split; [reflexivity|].
  exact (proj1 (paths_must_be_a_mapping [("paths", VNone)] VNone eq_refl
                  (fun ps H => ltac:(discriminate H)))).
Defined.

(** ** Which findings the filters of [main] keep as errors *)

Lemma emits_bind_lift (P : string -> Prop) {A B} (r : result A) (k : A -> M B) :
  (forall a, r = Ok a -> emits P (k a)) -> emits P (bind (lift r) k).
Proof.
  intros H. destruct r as [a|e].
  - rewrite bind_lift_Ok. apply H. reflexivity.
  - intros b es ws Hb. discriminate Hb.
Qed.

Ltac emits_step' :=
  lazymatch goal with
  | |- emits _ (bind (lift _) _) => apply emits_bind_lift; intros ? ?
  | |- emits _ (bind _ _) => apply emits_bind; [|intros ?]
  | |- emits _ (lift _) => apply emits_lift
  | |- emits _ (ret _) => apply emits_ret
  | |- emits _ (when _ _) => apply emits_when
  | |- emits _ (error _) => apply emits_error
  | |- emits _ (warning _) => apply emits_warning
  | |- emits _ (for_each _ _) => apply emits_for_each; intros ? ?
  | |- emits _ (any_of _ _) => apply emits_any_of
  | |- emits _ (none_in _ _) => apply emits_none_in
  | |- emits _ (if ?b then _ else _) => destruct b
  end.

Lemma get_field spec k v :
  Py.get spec k empty_dict = Ok v -> v = field k spec.
Proof. destruct spec; try discriminate. simpl. intros H. inversion H. reflexivity. Qed.

Lemma items_entries v entries :
  Py.items v = Ok entries -> entries = entries_of v.
Proof. destruct v; try discriminate. simpl. intros H. inversion H. reflexivity. Qed.

Lemma contains_cons_skip sub b r :
  String.prefix sub (String b r) = false ->
  Str.contains sub (String b r) = Str.contains sub r.
Proof.
  intros H. change (Str.contains sub (String b r))
    with (String.prefix sub (String b r) || Str.contains sub r).
  rewrite H. reflexivity.
Qed.

(** [contains w (lower (pre ++ name ++ post))] is [contains w (lower name)]
    when neither literal touches [w] *)
Ltac word_in_name :=
  rewrite ?skip_method_required by assumption;
  rewrite ?skip_method_missing by assumption;
  rewrite ?lower_app; lower_literal; cbn [append];
  rewrite ?contains_cons_skip by reflexivity;
  rewrite ?contains_app_foreign by reflexivity.

Lemma paths_findings_severity spec :
  (forall path, In path (path_names spec) ->
                Str.contains "required" (Str.lower path) = false) ->
  emits (fun e => is_error Paths e = false) (paths_body spec).
Proof.
  intros Hnames. unfold paths_body, path_checks, operation_checks.
  repeat emits_step';
    match goal with
    | Hg : Py.get spec "paths" empty_dict = Ok ?p,
      Hi : Py.items ?p = Ok ?entries,
      Hin : In ?x ?entries |- _ =>
        apply get_field in Hg; apply items_entries in Hi; subst;
        assert (Hreq : Str.contains "required" (Str.lower (fst x)) = false)
          by (apply Hnames; unfold path_names; apply in_map; exact Hin)
    end;
    unfold is_error; apply andb_false_iff; right; word_in_name; exact Hreq.
Qed.

Lemma schemas_findings_severity spec :
  (forall name, In name (schema_names spec) ->
                Str.contains "required" (Str.lower name) = false) ->
  emits (fun e => is_error Schemas e = false) (schemas_body spec).
Proof.
  intros Hnames. unfold schemas_body, schema_checks.
  repeat emits_step';
    match goal with
    | Hc : Py.get spec "components" empty_dict = Ok ?c,
      Hg : Py.get ?c "schemas" empty_dict = Ok ?p,
      Hi : Py.items ?p = Ok ?entries,
      Hin : In ?x ?entries |- _ =>
        apply get_field in Hc; apply get_field in Hg;
        apply items_entries in Hi; subst;
        assert (Hreq : Str.contains "required" (Str.lower (fst x)) = false)
          by (apply Hnames; unfold schema_names; apply in_map; exact Hin)
    end;
    unfold is_error; word_in_name; exact Hreq.
Qed.

Lemma security_findings_severity spec :
  (forall name, In name (scheme_names spec) ->
                Str.contains "Missing" name = false /\
                Str.contains "requires" name = false) ->
  emits (fun e => is_error Security e = false) (security_body spec).
Proof.
  intros Hnames. unfold security_body, scheme_checks.
  repeat emits_step'; try reflexivity;
    match goal with
    | Hc : Py.get spec "components" empty_dict = Ok ?c,
      Hg : Py.get ?c "securitySchemes" empty_dict = Ok ?p,
      Hi : Py.items ?p = Ok ?entries,
      Hin : In ?x ?entries |- _ =>
        apply get_field in Hc; apply get_field in Hg;
        apply items_entries in Hi; subst;
        destruct (Hnames (fst x)) as [HM HR];
          [unfold scheme_names; apply in_map; exact Hin|]
    end;
    unfold is_error; apply andb_false_iff;
    first [ left; word_in_name; exact HM | right; word_in_name; exact HR ].
Qed.

(** X5: when no path name contains [required] in any case, every finding
    of the paths pass gets severity Warning from the filter of [main]. *)
Theorem paths_findings_are_warnings (spec : value) (l : list string) :
  (forall path, In path (path_names spec) ->
                Str.contains "required" (Str.lower path) = false) ->
  validate_paths spec = Ok l ->
  Forall (fun e => classify Paths e = Warning) l.
Proof.
  intros Hnames Hl.
  assert (H := emits_returned _ _ _ (paths_findings_severity spec Hnames) Hl).
  rewrite Forall_forall in *. intros e He. unfold classify. rewrite (H e He).
  reflexivity.
Qed.

Lemma paths_findings_are_warnings_witness :
  Forall (fun e => classify Paths e = Warning)
    ["GET /users: Missing 'responses'";
     "GET /users: Missing 'summary' or 'description'";
     "GET /users: Missing 'operationId' (recommended)"].
Proof.
  apply (paths_findings_are_warnings Samples.doc_missing_responses).
  - intros path [<-|[]]. reflexivity.
  - reflexivity.
Defined.

(** X6: when no schema name contains [required] in any case, every finding
    of the schemas pass gets severity Warning from the filter of [main]. *)
Theorem schema_findings_are_warnings (spec : value) (l : list string) :
  (forall name, In name (schema_names spec) ->
                Str.contains "required" (Str.lower name) = false) ->
  validate_schemas spec = Ok l ->
  Forall (fun e => classify Schemas e = Warning) l.
Proof.
  intros Hnames Hl.
  assert (H := emits_returned _ _ _ (schemas_findings_severity spec Hnames) Hl).
  rewrite Forall_forall in *. intros e He. unfold classify. rewrite (H e He).
  reflexivity.
Qed.

Lemma schema_findings_are_warnings_witness :
  Forall (fun e => classify Schemas e = Warning)
    ["Schema 'Pet': Missing 'description' (recommended)";
     "Schema 'Pet': Object type but no 'properties' defined"].
Proof.
  apply (schema_findings_are_warnings Samples.doc_mixed).
  - intros name [<-|[]]. reflexivity.
  - reflexivity.
Defined.

(** X8: when no security scheme name contains [Missing] or [requires],
    every finding of the security pass gets severity Warning from the
    filter of [main]. *)
Theorem security_findings_are_warnings (spec : value) (l : list string) :
  (forall name, In name (scheme_names spec) ->
                Str.contains "Missing" name = false /\
                Str.contains "requires" name = false) ->
  validate_security spec = Ok l ->
  Forall (fun e => classify Security e = Warning) l.
Proof.
  intros Hnames Hl.
  assert (H := emits_returned _ _ _ (security_findings_severity spec Hnames) Hl).
  rewrite Forall_forall in *. intros e He. unfold classify. rewrite (H e He).
  reflexivity.
Qed.

Lemma security_findings_are_warnings_witness :
  Forall (fun e => classify Security e = Warning)
    ["Security scheme 'myApiKey': apiKey type requires 'name'";
     "Security scheme 'myApiKey': apiKey type requires 'in'"].
Proof.
  apply (security_findings_are_warnings Samples.doc_api_key).
  - intros name [<-|[]]. split; reflexivity.
  - reflexivity.
Defined.

Lemma filter_none {A} (f : A -> bool) l :
  Forall (fun x => f x = false) l -> filter f l = [].
Proof.
  induction 1 as [|x r Hx _ IH]; [reflexivity|]. simpl. rewrite Hx. exact IH.
Qed.

(** X9: when no path or schema name contains [required] and no scheme name
    contains [Missing] or [requires], the errors of a completed run are
    exactly the findings of the structure pass other than the empty-paths
    one, in order. *)
Theorem errors_come_from_structure (spec : value) (f : findings) :
  (forall path, In path (path_names spec) ->
                Str.contains "required" (Str.lower path) = false) ->
  (forall name, In name (schema_names spec) ->
                Str.contains "required" (Str.lower name) = false) ->
  (forall name, In name (scheme_names spec) ->
                Str.contains "Missing" name = false /\
                Str.contains "requires" name = false) ->
  run_validations spec = Ok f ->
  exists structure_errors,
    validate_structure spec = Ok structure_errors /\
    all_errors f =
      filter (fun e => negb (String.eqb e empty_paths_msg)) structure_errors.
Proof.
  intros Hpaths Hschemas Hschemes H.
  destruct (run_validations_closed_form spec f H) as [raw [Hraw [He _]]].
  unfold raw_findings in Hraw. simpl in Hraw.
  destruct (validate_structure spec) as [s1|] eqn:E1; [|discriminate].
  destruct (validate_paths spec) as [s2|] eqn:E2; [|discriminate].
  destruct (validate_schemas spec) as [s3|] eqn:E3; [|discriminate].
  destruct (validate_security spec) as [s4|] eqn:E4; [|discriminate].
  destruct (validate_examples spec) as [s5|] eqn:E5; [|discriminate].
  destruct (validate_best_practices spec) as [s6|] eqn:E6; [|discriminate].
  simpl in Hraw. inversion Hraw; subst raw; clear Hraw.
  exists s1. split; [reflexivity|]. rewrite He.
  unfold raw_is_error. rewrite !filter_app, !map_app, !(filter_tagged is_error).
  rewrite (filter_none (is_error Paths) s2)
    by exact (emits_returned _ _ _ (paths_findings_severity spec Hpaths) E2).
  rewrite (filter_none (is_error Schemas) s3)
    by exact (emits_returned _ _ _ (schemas_findings_severity spec Hschemas) E3).
  rewrite (filter_none (is_error Security) s4)
    by exact (emits_returned _ _ _ (security_findings_severity spec Hschemes) E4).
  rewrite (filter_none (is_error Examples) s5)
    by (apply Forall_forall; reflexivity).
  rewrite (filter_none (is_error BestPractices) s6)
    by (apply Forall_forall; reflexivity).
  rewrite !app_nil_r. apply filter_ext_in. intros e Hin.
  assert (Hsev := emits_returned _ _ _ (structure_findings_severity spec) E1).
  rewrite Forall_forall in Hsev. destruct (Hsev e Hin) as [-> | Herr].
  - reflexivity.
  - rewrite Herr. destruct (String.eqb e empty_paths_msg) eqn:Heq; [|reflexivity].
    apply String.eqb_eq in Heq. subst e. discriminate Herr.
Qed.

Lemma errors_come_from_structure_witness :
  exists structure_errors,
    validate_structure Samples.doc_api_key = Ok structure_errors /\
    @nil string =
      filter (fun e => negb (String.eqb e empty_paths_msg)) structure_errors.
Proof.
  refine (errors_come_from_structure Samples.doc_api_key
            (Findings []
               ("Security scheme 'myApiKey': apiKey type requires 'name'"
                :: "Security scheme 'myApiKey': apiKey type requires 'in'"
                :: standing_warnings)) _ _ _ eq_refl).
  - intros path [<-|[]]. reflexivity.
  - intros name [].
  - intros name [<-|[]]. split; reflexivity.
Defined.

(** ** Findings of a path item, a schema and a security scheme *)

Lemma any_of_mapping d l :
  any_of (fun op => Py.contains op (VDict d)) l = ret (existsb (fun op => has op d) l).
Proof.
  induction l as [|op r IH]; [reflexivity|].
  cbn [any_of Py.contains]. rewrite bind_lift_Ok. fold (has op d).
  simpl existsb. destruct (has op d); [reflexivity|exact IH].
Qed.

Lemma none_in_mapping d l :
  none_in l (VDict d) = ret (negb (existsb (fun k => has k d) l)).
Proof.
  induction l as [|k r IH]; [reflexivity|].
  cbn [none_in Py.contains]. rewrite bind_lift_Ok. fold (has k d).
  simpl existsb. destruct (has k d); [reflexivity|exact IH].
Qed.

Lemma operations_messages path item :
  emits (fun e => substring 0 2 e <> "Pa")
    (for_each operations (fun method =>
       present <- lift (Py.contains method item) ;;
       if present then
         operation <- lift (Py.getitem item method) ;;
         operation_checks path method operation
       else ret tt)).
Proof.
  unfold operation_checks.
  repeat emits_step;
    match goal with
    | H : In _ operations |- _ =>
        unfold operations in H; simpl in H;
        repeat (destruct H as [<-|H]; [discriminate|]); contradiction
    end.
Qed.

(** X10: for a path item that is a mapping, the checks of the path warn
    that the path has no operations exactly when none of the seven methods
    is a key of the item. *)
Theorem no_operations_warning_iff (path : string) (item : list (string * value))
    (es ws : list string) :
  path_checks path (VDict item) = Ok (tt, (es, ws)) ->
  (In (no_operations_msg path) ws <->
   forall method, In method operations -> Py.lookup method item = None).
Proof.
  unfold path_checks. rewrite any_of_mapping. intros H.
  apply bind_Ok in H. destruct H as [[] [e1 [w1 [e2 [w2 [H1 [H [-> ->]]]]]]]].
  rewrite bind_ret_l in H.
  apply bind_Ok in H. destruct H as [[] [e3 [w3 [e4 [w4 [H3 [H4 [-> ->]]]]]]]].
  assert (Hw1 : w1 = []).
  { destruct (negb (Str.startswith path "/")); inversion H1; reflexivity. }
  subst w1. simpl.
  destruct (operations_messages path (VDict item) tt e4 w4 H4) as [_ Hw4].
  assert (Hnot4 : ~ In (no_operations_msg path) w4).
  { intros Hin. rewrite Forall_forall in Hw4. apply (Hw4 _ Hin). reflexivity. }
  destruct (existsb (fun op => has op item) operations) eqn:Hex.
  - inversion H3; subst. simpl. split; [intros Hin; destruct (Hnot4 Hin)|].
    intros Hnone. apply existsb_exists in Hex. destruct Hex as [m [Hm Hhas]].
    unfold has in Hhas. rewrite (Hnone m Hm) in Hhas. discriminate.
  - inversion H3; subst. split; [|intros _; left; reflexivity].
    intros _ method Hm.
    assert (Hhas : has method item = false).
    { destruct (has method item) eqn:Hh; [|reflexivity].
      assert (existsb (fun op => has op item) operations = true)
        by (apply existsb_exists; exists method; split; assumption). congruence. }
    unfold has in Hhas. destruct (Py.lookup method item); [discriminate|reflexivity].
Qed.

Lemma no_operations_warning_iff_witness :
  In (no_operations_msg "items/list")
     ["Path 'items/list' has no operations defined"] <->
  forall method, In method operations -> Py.lookup method [] = None.
Proof.
  exact (no_operations_warning_iff "items/list" []
           ["Path 'items/list' must start with '/'"]
           ["Path 'items/list' has no operations defined"] eq_refl).
Defined.

Lemma append_inv_head a x y : (a ++ x = a ++ y)%string -> x = y.
Proof. induction a as [|c a IH]; simpl; intros H; [assumption|]. inversion H. auto. Qed.

Lemma schema_checks_closed name s :
  schema_checks name (VDict s) =
  Ok (tt, ([],
    ((if negb (existsb (fun k => has k s) ["type"; "$ref"; "allOf"; "oneOf"; "anyOf"])
      then [missing_type_msg name] else [])
     ++ (if has "description" s then [] else [missing_description_msg name])
     ++ (if Py.eq_str (field "type" (VDict s)) "object" && negb (has "properties" s)
         then [no_properties_msg name] else []))%list)).
Proof.
  unfold schema_checks. rewrite none_in_mapping, bind_ret_l.
  cbn [Py.contains Py.get field].
  fold (has "description" s). fold (has "properties" s).
  assert (Heq : Py.eq_str match Py.lookup "type" s with
                          | Some v => v | None => VNone end "object"
                = Py.eq_str match Py.lookup "type" s with
                            | Some v => v | None => empty_dict end "object").
  { destruct (Py.lookup "type" s); reflexivity. }
  rewrite !bind_lift_Ok. rewrite Heq. clear Heq.
  destruct (negb (existsb _ _)); destruct (has "description" s);
    destruct (Py.eq_str _ "object"); destruct (has "properties" s); reflexivity.
Qed.

Lemma in_optional3 (b1 b2 b3 : bool) (m1 m2 m3 : string) :
  m1 <> m2 -> m1 <> m3 -> m2 <> m3 ->
  let ws := ((if b1 then [m1] else []) ++ (if b2 then [] else [m2])
             ++ (if b3 then [m3] else []))%list in
  length ws <= 3 /\
  (In m1 ws <-> b1 = true) /\ (In m2 ws <-> b2 = false) /\ (In m3 ws <-> b3 = true).
Proof.
  intros H12 H13 H23. destruct b1, b2, b3; simpl;
    (split; [lia|]); repeat split; intros;
    repeat match goal with
           | H : _ \/ _ |- _ => destruct H
           | H : False |- _ => destruct H
           end;
    try congruence; try discriminate; auto.
Qed.

(** X12: on a schema that is a mapping the checks never raise and file no
    error and at most three warnings: missing type exactly when none of
    [type], [$ref], [allOf], [oneOf], [anyOf] is a key, missing description
    exactly when [description] is absent, no properties exactly when
    [type] is the string [object] and [properties] is absent. *)
Theorem schema_findings_characterised (name : string) (s : list (string * value)) :
  exists ws,
    schema_checks name (VDict s) = Ok (tt, ([], ws)) /\
    length ws <= 3 /\
    (In (missing_type_msg name) ws <->
     forall k, In k ["type"; "$ref"; "allOf"; "oneOf"; "anyOf"] ->
               Py.lookup k s = None) /\
    (In (missing_description_msg name) ws <-> Py.lookup "description" s = None) /\
    (In (no_properties_msg name) ws <->
     Py.lookup "type" s = Some (VStr "object") /\ Py.lookup "properties" s = None).
Proof.
  eexists. split; [apply schema_checks_closed|].
  assert (Hd12 : missing_type_msg name <> missing_description_msg name).
  { intros H. apply append_inv_head, append_inv_head in H. discriminate H. }
  assert (Hd13 : missing_type_msg name <> no_properties_msg name).
  { intros H. apply append_inv_head, append_inv_head in H. discriminate H. }
  assert (Hd23 : missing_description_msg name <> no_properties_msg name).
  { intros H. apply append_inv_head, append_inv_head in H. discriminate H. }
  destruct (in_optional3
              (negb (existsb (fun k => has k s)
                             ["type"; "$ref"; "allOf"; "oneOf"; "anyOf"]))
              (has "description" s)
              (Py.eq_str (field "type" (VDict s)) "object" && negb (has "properties" s))
              _ _ _ Hd12 Hd13 Hd23) as [Hlen [H1 [H2 H3]]].
  split; [exact Hlen|]. split; [|split].
  - rewrite H1, negb_true_iff. split.
    + intros Hex k Hk. destruct (Py.lookup k s) eqn:Hl; [|reflexivity].
      assert (existsb (fun k => has k s) ["type"; "$ref"; "allOf"; "oneOf"; "anyOf"]
              = true).
      { apply existsb_exists. exists k. split; [assumption|].
        unfold has. rewrite Hl. reflexivity. }
      congruence.
    + intros Hnone.
      destruct (existsb _ _) eqn:Hex; [|reflexivity].
      apply existsb_exists in Hex. destruct Hex as [k [Hk Hh]].
      unfold has in Hh. rewrite (Hnone k Hk) in Hh. discriminate.
  - rewrite H2. unfold has. destruct (Py.lookup "description" s); split;
      intros; congruence.
  - rewrite H3. unfold has, field. rewrite andb_true_iff. split.
    + intros [Ht Hp]. split.
      * destruct (Py.lookup "type" s) as [[| | | |t| |]|]; try discriminate Ht.
        apply String.eqb_eq in Ht. subst t. reflexivity.
      * destruct (Py.lookup "properties" s); [discriminate Hp|reflexivity].
    + intros [-> ->]. split; reflexivity.
Qed.

Lemma scheme_checks_closed name s :
  scheme_checks name (VDict s) =
  Ok (tt,
      (((if has "type" s then [] else [missing_scheme_type_msg name])
        ++ (if Py.eq_str (field "type" (VDict s)) "http" then
              if has "scheme" s then []
              else [http_scheme_msg name]
            else if Py.eq_str (field "type" (VDict s)) "apiKey" then
              (if has "name" s then [] else [api_key_msg name "name"])
              ++ (if has "in" s then [] else [api_key_msg name "in"])
            else if Py.eq_str (field "type" (VDict s)) "oauth2" then
              if has "flows" s then []
              else [oauth2_flows_msg name]
            else []))%list, [])).
Proof.
  unfold scheme_checks. cbn [Py.contains Py.get field].
  fold (has "type" s) (has "scheme" s) (has "name" s) (has "in" s) (has "flows" s).
  assert (Heq : forall k,
            Py.eq_str match Py.lookup "type" s with
                      | Some v => v | None => VNone end k
            = Py.eq_str match Py.lookup "type" s with
                        | Some v => v | None => empty_dict end k).
  { intros k. destruct (Py.lookup "type" s); reflexivity. }
  rewrite !bind_lift_Ok. rewrite !Heq. clear Heq.
  destruct (has "type" s);
    destruct (Py.eq_str _ "http"); [destruct (has "scheme" s); reflexivity| |
                                    destruct (has "scheme" s); reflexivity|];
    (destruct (Py.eq_str _ "apiKey");
     [destruct (has "name" s); destruct (has "in" s); reflexivity|]);
    (destruct (Py.eq_str _ "oauth2");
     [destruct (has "flows" s); reflexivity|reflexivity]).
Qed.

(** X13: on a security scheme that is a mapping the checks never raise and
    file no warning and at most two errors; a scheme whose [type] is
    present and is none of [http], [apiKey], [oauth2] gets no finding, and
    a scheme without [type] gets the missing-type finding only. *)
Theorem scheme_findings_bounded (name : string) (s : list (string * value)) :
  exists es,
    scheme_checks name (VDict s) = Ok (tt, (es, [])) /\
    length es <= 2 /\
    (forall t, Py.lookup "type" s = Some t ->
               Py.eq_str t "http" = false -> Py.eq_str t "apiKey" = false ->
               Py.eq_str t "oauth2" = false -> es = []) /\
    (Py.lookup "type" s = None -> es = [missing_scheme_type_msg name]).
Proof.
  eexists. split; [apply scheme_checks_closed|].
  unfold has, field. split; [|split].
  - destruct (Py.lookup "type" s) as [t|]; cbn [Py.eq_str Py.is_str empty_dict app length].
    + destruct (Py.eq_str t "http"); [destruct (Py.lookup "scheme" s); simpl; lia|].
      destruct (Py.eq_str t "apiKey");
        [destruct (Py.lookup "name" s); destruct (Py.lookup "in" s); simpl; lia|].
      destruct (Py.eq_str t "oauth2"); [destruct (Py.lookup "flows" s); simpl; lia|].
      simpl; lia.
    + simpl; lia.
  - intros t Ht H1 H2 H3. rewrite Ht, H1, H2, H3. reflexivity.
  - intros ->. reflexivity.
Qed.

Lemma schemes_messages (entries : list (string * value)) :
  emits (fun e => substring 0 2 e <> "No")
    (for_each entries (fun entry : string * value =>
       scheme_checks (fst entry) (snd entry))).
Proof. unfold scheme_checks. repeat emits_step; discriminate. Qed.

(** X14: when the security pass returns, its list holds the warning that
    no security scheme is defined exactly when
    [components.securitySchemes] is absent or empty. *)
Theorem no_security_warning_iff (spec : value) (l : list string) :
  validate_security spec = Ok l ->
  (In no_security_warning l <->
   Py.truthy (field "securitySchemes" (field "components" spec)) = false).
Proof.
  unfold validate_security, security_body. intros H.
  destruct (Py.get spec "components" empty_dict) as [c|] eqn:Hc; [|discriminate H].
  rewrite bind_lift_Ok in H. apply get_field in Hc. subst c.
  destruct (Py.get (field "components" spec) "securitySchemes" empty_dict)
    as [ss|] eqn:Hs; [|discriminate H].
  rewrite bind_lift_Ok in H. apply get_field in Hs. subst ss.
  set (ss := field "securitySchemes" (field "components" spec)) in *.
  destruct (Py.items ss) as [entries|] eqn:Hi.
  2:{ destruct (negb (Py.truthy ss)); discriminate H. }
  rewrite bind_lift_Ok in H.
  destruct (for_each entries
              (fun entry : string * value => scheme_checks (fst entry) (snd entry)))
    as [[[] [es ws]]|] eqn:Hfor.
  2:{ destruct (negb (Py.truthy ss)); discriminate H. }
  destruct (schemes_messages entries tt es ws Hfor) as [Hes Hws].
  assert (Hnot : ~ In no_security_warning (es ++ ws)).
  { intros Hin. apply in_app_or in Hin. rewrite Forall_forall in Hes, Hws.
    destruct Hin as [Hin|Hin]; [apply (Hes _ Hin)|apply (Hws _ Hin)]; reflexivity. }
  destruct (Py.truthy ss); simpl in H; inversion H; subst l.
  - split; [intros Hin; destruct (Hnot Hin)|discriminate].
  - split; [reflexivity|]. intros _. apply in_or_app. right. left. reflexivity.
Qed.

Lemma no_security_warning_iff_witness :
  In no_security_warning [no_security_warning] <->
  Py.truthy (field "securitySchemes" (field "components" Samples.doc_empty_paths))
  = false.
Proof.
  exact (no_security_warning_iff Samples.doc_empty_paths [no_security_warning]
           eq_refl).
Defined.

(** ** The conventions on path names *)

Lemma append_nil_r s : s ++ "" = s.
Proof. induction s as [|c r IH]; simpl; [reflexivity|]. rewrite IH. reflexivity. Qed.

Lemma append_assoc s t u : (s ++ t) ++ u = s ++ (t ++ u).
Proof. induction s as [|c r IH]; simpl; [reflexivity|]. rewrite IH. reflexivity. Qed.

Lemma rev_app s t : Str.rev (s ++ t) = Str.rev t ++ Str.rev s.
Proof.
  induction s as [|c r IH]; simpl.
  - rewrite append_nil_r. reflexivity.
  - rewrite IH, append_assoc. reflexivity.
Qed.

Lemma rev_involutive s : Str.rev (Str.rev s) = s.
Proof.
  induction s as [|c r IH]; simpl; [reflexivity|].
  rewrite rev_app, IH. reflexivity.
Qed.

Lemma endswith_char s c :
  Str.endswith s (String c "") = true <-> exists r, s = r ++ String c "".
Proof.
  unfold Str.endswith. simpl Str.rev. split.
  - intros H. destruct (Str.rev s) as [|a t] eqn:Hrev; [discriminate H|].
    simpl in H. destruct (ascii_dec c a) as [->|]; [|discriminate H].
    exists (Str.rev t). rewrite <- (rev_involutive s), Hrev. reflexivity.
  - intros [r ->]. rewrite rev_app. simpl.
    destruct (ascii_dec c c); [|congruence]. destruct (Str.rev r); reflexivity.
Qed.

Lemma upper_char_fixed c :
  Ascii.eqb (Str.upper_char c) c = negb (Str.is_lower c).
Proof. destruct c as [[] [] [] [] [] [] [] []]; reflexivity. Qed.

Lemma upper_fixed s : String.eqb (Str.upper s) s = no_lower s.
Proof.
  induction s as [|c r IH]; [reflexivity|].
  change (Str.upper (String c r)) with (String (Str.upper_char c) (Str.upper r)).
  simpl. rewrite upper_char_fixed, IH.
  destruct (Str.is_lower c); reflexivity.
Qed.

Lemma contains_char c s :
  Str.contains (String c "") s = negb (char_free c s).
Proof.
  induction s as [|a r IH]; [reflexivity|].
  change (Str.contains (String c "") (String a r))
    with (String.prefix (String c "") (String a r) || Str.contains (String c "") r).
  rewrite IH. simpl. destruct (ascii_dec c a) as [->|Hne].
  - rewrite Ascii.eqb_refl. destruct r; reflexivity.
  - destruct (Ascii.eqb a c) eqn:Heq.
    + apply Ascii.eqb_eq in Heq. congruence.
    + reflexivity.
Qed.

Lemma scan_no_open s :
  char_free "{" s = true -> Str.scan_params None s = [].
Proof.
  induction s as [|c r IH]; [reflexivity|].
  simpl. intros H. apply andb_true_iff in H. destruct H as [Hc Hr].
  apply negb_true_iff in Hc. rewrite Hc. auto.
Qed.

Lemma scan_no_close s inside :
  char_free "}" s = true -> Str.scan_params inside s = [].
Proof.
  revert inside. induction s as [|c r IH]; intros inside H; [reflexivity|].
  simpl in H. apply andb_true_iff in H. destruct H as [Hc Hr].
  apply negb_true_iff in Hc. simpl. rewrite Hc.
  destruct inside; [apply IH; assumption|].
  destruct (Ascii.eqb c "{"); apply IH; assumption.
Qed.

Lemma for_each_flagged {A} (g : A -> bool) (msg : A -> string) (l : list A) :
  for_each l (fun x => when (g x) (warning (msg x))) =
  Ok (tt, ([], map msg (filter g l))).
Proof.
  induction l as [|x r IH]; [reflexivity|].
  simpl. rewrite IH. destruct (g x); reflexivity.
Qed.

Lemma for_each_ext {A} (l : list A) (f g : A -> M unit) :
  (forall x, f x = g x) -> for_each l f = for_each l g.
Proof.
  intros H. induction l as [|x r IH]; [reflexivity|].
  simpl. rewrite H, IH. reflexivity.
Qed.


Lemma char_free_app c s t :
  char_free c (s ++ t) = char_free c s && char_free c t.
Proof.
  induction s as [|a r IH]; [reflexivity|]. simpl. rewrite IH. apply andb_assoc.
Qed.

Lemma scan_sound s :
  forall pre inside,
    match inside with
    | None => True
    | Some acc => char_free "}" acc = true /\ exists pre', pre = pre' ++ "{" ++ acc
    end ->
    Forall (fun p => p <> "" /\ char_free "}" p = true /\
                     exists a b, pre ++ s = a ++ "{" ++ p ++ "}" ++ b)
           (Str.scan_params inside s).
Proof.
  induction s as [|c r IH]; intros pre inside Hinv; [constructor|].
  assert (Hstep : forall inside',
    match inside' with
    | None => True
    | Some acc => char_free "}" acc = true /\
                  exists pre', pre ++ String c "" = pre' ++ "{" ++ acc
    end ->
    Forall (fun p => p <> "" /\ char_free "}" p = true /\
                     exists a b, pre ++ String c r = a ++ "{" ++ p ++ "}" ++ b)
           (Str.scan_params inside' r)).
  { intros inside' H'. specialize (IH (pre ++ String c "") inside' H').
    rewrite append_assoc in IH. exact IH. }
  simpl. destruct inside as [acc|].
  - destruct Hinv as [Hfree [pre' Hpre]].
    destruct (Ascii.eqb c "}") eqn:Hc.
    + apply Ascii.eqb_eq in Hc. subst c.
      destruct acc as [|a acc'].
      * apply Hstep. exact I.
      * constructor; [|apply Hstep; exact I].
        split; [discriminate|]. split; [exact Hfree|].
        exists pre', r. rewrite Hpre, !append_assoc. reflexivity.
    + apply Hstep. split.
      * rewrite char_free_app, Hfree. simpl. rewrite Hc. reflexivity.
      * exists pre'. rewrite Hpre, !append_assoc. reflexivity.
  - destruct (Ascii.eqb c "{") eqn:Hc.
    + apply Ascii.eqb_eq in Hc. subst c. apply Hstep. split; [reflexivity|].
      exists pre. reflexivity.
    + apply Hstep. exact I.
Qed.

(** X17: every parameter name that the pattern extracts from a path is not
    empty, contains no closing brace, and stands between braces in the
    path. *)
Theorem findall_params_sound (path : string) :
  Forall (fun p => p <> "" /\ char_free "}" p = true /\
                   exists a b, path = a ++ "{" ++ p ++ "}" ++ b)
         (Str.findall_params path).
Proof. exact (scan_sound path "" None I). Qed.

(** X18: the trailing-slash rule warns exactly for the paths that end with
    a slash after at least one other character, and emits nothing for any
    other path, the root [/] and the empty path included. *)
Theorem trailing_slash_warning_iff (path : string) :
  (trailing_slash_rule path = Ok (tt, ([], [trailing_slash_msg path])) <->
   exists r, r <> "" /\ path = r ++ "/") /\
  (trailing_slash_rule path = Ok (tt, ([], [])) <->
   ~ exists r, r <> "" /\ path = r ++ "/").
Proof.
  assert (Hcond : Str.endswith path "/" && negb (String.eqb path "/") = true <->
                  exists r, r <> "" /\ path = r ++ "/").
  { rewrite andb_true_iff, negb_true_iff, endswith_char. split.
    - intros [[r ->] Hne]. exists r. split; [|reflexivity].
      intros ->. discriminate Hne.
    - intros [r [Hr ->]]. split; [exists r; reflexivity|].
      apply String.eqb_neq. intros H. destruct r as [|a r]; [congruence|].
      simpl in H. inversion H as [[Ha Hr']]. destruct r; discriminate. }
  unfold trailing_slash_rule.
  destruct (Str.endswith path "/" && negb (String.eqb path "/")); simpl;
    split; split; intros H; try discriminate.
  - apply Hcond. reflexivity.
  - reflexivity.
  - destruct H. apply Hcond. reflexivity.
  - apply Hcond in H. discriminate.
  - intros H'. apply Hcond in H'. discriminate.
  - reflexivity.
Qed.

(** ** A schema name that meets the filter; what the examples pass warns about *)

Lemma reports_warning msg : reports msg (warning msg).
Proof. intros a es ws H. inversion H. left. reflexivity. Qed.

Lemma missing_description_msg_is_error name :
  is_error Schemas (missing_description_msg name) =
  Str.contains "required" (Str.lower name).
Proof. unfold is_error, missing_description_msg. word_in_name. reflexivity. Qed.

Lemma schemas_report_missing_description d components schemas name s :
  Py.lookup "components" d = Some (VDict components) ->
  Py.lookup "schemas" components = Some (VDict schemas) ->
  In (name, VDict s) schemas ->
  Py.lookup "description" s = None ->
  reports (missing_description_msg name) (schemas_body (VDict d)).
Proof.
  intros Hc Hs Hin Hd. unfold schemas_body.
  cbn [Py.get]. rewrite Hc, bind_lift_Ok. cbn [Py.get]. rewrite Hs, bind_lift_Ok.
  cbn [Py.items]. rewrite bind_lift_Ok.
  apply (reports_for_each _ _ _ (name, VDict s) Hin).
  unfold schema_checks. cbn [fst snd].
  apply reports_bind_r. intros untyped. apply reports_bind_r. intros _.
  cbn [Py.contains]. rewrite Hd, bind_lift_Ok.
  apply reports_bind_l, reports_warning.
Qed.

(** X7: a schema without [description] whose name contains [required] in
    any case turns its missing-description finding into an error of the
    run, and the process exits with status 1. *)
Theorem schema_named_required_is_an_error
    (d components schemas : list (string * value)) (name : string)
    (s : list (string * value)) (f : findings) :
  Py.lookup "components" d = Some (VDict components) ->
  Py.lookup "schemas" components = Some (VDict schemas) ->
  In (name, VDict s) schemas ->
  Py.lookup "description" s = None ->
  Str.contains "required" (Str.lower name) = true ->
  run_validations (VDict d) = Ok f ->
  In (missing_description_msg name) (all_errors f) /\
  forall parse_file prog spec_file rest,
    parse_file spec_file = inl (VDict d) ->
    exit_status (main parse_file (prog :: spec_file :: rest)) = 1%Z.
Proof.
  intros Hc Hs Hin Hd Hreq H.
  destruct (run_pass_completes _ _ Schemas H) as [l Hl].
  assert (Herr : In (missing_description_msg name) (all_errors f)).
  { apply (error_in_run (VDict d) f Schemas l _ H Hl).
    - apply (reports_returned _ (schemas_body (VDict d))); [|exact Hl].
      apply (schemas_report_missing_description d components schemas name s);
        assumption.
    - rewrite missing_description_msg_is_error. exact Hreq. }
  split; [exact Herr|].
  intros parse_file prog spec_file rest Hp.
  rewrite exit_status_main, Hp, H.
  destruct (all_errors f); [destruct Herr|reflexivity].
Qed.

Lemma schema_named_required_is_an_error_witness :
  run_validations doc_required_schema =
    Ok (Findings ["Schema 'RequiredFields': Missing 'description' (recommended)"]
                 (no_security_warning :: standing_warnings)) /\
  In (missing_description_msg "RequiredFields")
     ["Schema 'RequiredFields': Missing 'description' (recommended)"].
Proof.
  split; [reflexivity|].
  exact (proj1 (schema_named_required_is_an_error
                  match doc_required_schema with VDict d => d | _ => [] end
                  _ _ "RequiredFields" [("type", VStr "string")]
                  (Findings
                     ["Schema 'RequiredFields': Missing 'description' (recommended)"]
                     (no_security_warning :: standing_warnings))
                  eq_refl eq_refl (or_introl eq_refl) eq_refl eq_refl eq_refl)).
Defined.

Ltac emits_step_eqn :=
  lazymatch goal with
  | |- emits _ (bind (lift _) _) => apply emits_bind_lift; intros ? ?
  | |- emits _ (bind _ _) => apply emits_bind; [|intros ?]
  | |- emits _ (lift _) => apply emits_lift
  | |- emits _ (ret _) => apply emits_ret
  | |- emits _ (when _ _) => apply emits_when
  | |- emits _ (error _) => apply emits_error
  | |- emits _ (warning _) => apply emits_warning
  | |- emits _ (for_each _ _) => apply emits_for_each; intros ? ?
  | |- emits _ (any_of _ _) => apply emits_any_of
  | |- emits _ (none_in _ _) => apply emits_none_in
  | |- emits _ (if ?b then _ else _) => destruct b eqn:?
  | |- emits _ (let _ := _ in _) => cbv zeta
  end.

(** X15: every finding of the examples pass is the request message, or the
    response message for a status code that starts with 2, of an operation
    under [get], [post], [put], [patch] or [delete] of a path of the
    document. *)
Theorem examples_warn_only_about_bodies (spec : value) (l : list string) :
  validate_examples spec = Ok l -> Forall (example_finding spec) l.
Proof.
  intros H. apply (emits_returned _ (examples_body spec)); [|exact H]. clear H.
  unfold examples_body, example_checks, content_checks.
  repeat emits_step_eqn;
    match goal with
    | Hg : Py.get spec "paths" empty_dict = Ok ?p,
      Hi : Py.items ?p = Ok ?entries,
      Hin : In ?x ?entries, Hm : In ?m example_operations |- _ =>
        apply get_field in Hg; apply items_entries in Hi; subst;
        exists m, (fst x); split; [exact Hm|];
        split; [unfold path_names; apply in_map; exact Hin|]
    end;
    first [ left; reflexivity | right; eexists; split; [eassumption|reflexivity] ].
Qed.

Lemma examples_warn_only_about_bodies_witness :
  Forall (example_finding Samples.doc_post_examples)
    ["POST /users: Request body missing example";
     "POST /users: Request body missing example";
     "POST /users: Response 200 missing example";
     "POST /users: Response 200 missing example"].
Proof.
  exact (examples_warn_only_about_bodies Samples.doc_post_examples _ eq_refl).
Defined.

(** ** Documents on which the run completes *)

Lemma returns_ret {A} (a : A) : returns (ret a).
Proof. eexists _, _. reflexivity. Qed.

Lemma returns_error msg : returns (error msg).
Proof. eexists _, _. reflexivity. Qed.

Lemma returns_warning msg : returns (warning msg).
Proof. eexists _, _. reflexivity. Qed.

Lemma returns_when b m : returns m -> returns (when b m).
Proof. destruct b; [auto|intros _; apply returns_ret]. Qed.

Lemma returns_bind {A B} (m : M A) (k : A -> M B) :
  returns m -> (forall a, returns (k a)) -> returns (bind m k).
Proof.
  intros [a [[e1 w1] ->]] Hk. destruct (Hk a) as [b [[e2 w2] Hb]].
  unfold bind. rewrite Hb. eexists _, _. reflexivity.
Qed.

Lemma returns_for_each {A} (l : list A) (body : A -> M unit) :
  (forall x, In x l -> returns (body x)) -> returns (for_each l body).
Proof.
  induction l as [|x r IH]; intros H; [apply returns_ret|].
  simpl. apply returns_bind; [apply H; left; reflexivity|].
  intros _. apply IH. intros y Hy. apply H. right. exact Hy.
Qed.

Lemma returns_returned (m : M unit) : returns m -> exists l, returned m = Ok l.
Proof. intros [[] [[es ws] ->]]. eexists. reflexivity. Qed.

Lemma contains_container k v : is_container v = true -> exists b, Py.contains k v = Ok b.
Proof. destruct v; try discriminate; intros _; eexists; reflexivity. Qed.

Lemma operation_checks_returns path method o :
  returns (operation_checks path method (VDict o)).
Proof.
  unfold operation_checks. cbn [Py.contains Py.getitem]. rewrite none_in_mapping.
  rewrite !bind_lift_Ok.
  apply returns_bind.
  - destruct (Py.lookup "responses" o) as [r|]; cbn [negb].
    + rewrite bind_lift_Ok. apply returns_when, returns_error.
    + apply returns_error.
  - intros _. rewrite bind_ret_l.
    apply returns_bind; [apply returns_when, returns_warning|].
    intros _. apply returns_when, returns_warning.
Qed.

Lemma operation_ok_dict operation :
  operation_ok operation = true -> exists o, operation = VDict o.
Proof. destruct operation; try discriminate. eauto. Qed.

Lemma path_checks_returns path path_item :
  path_item_shape path_item = true -> returns (path_checks path path_item).
Proof.
  intros Hs. destruct path_item as [| | | | | |i]; try discriminate.
  unfold path_item_shape in Hs. rewrite forallb_forall in Hs.
  unfold path_checks. rewrite any_of_mapping.
  apply returns_bind; [apply returns_when, returns_error|]. intros _.
  rewrite bind_ret_l.
  apply returns_bind; [apply returns_when, returns_warning|]. intros _.
  apply returns_for_each. intros method Hm. specialize (Hs method Hm).
  cbn [Py.contains Py.getitem].
  destruct (Py.lookup method i) as [operation|]; rewrite bind_lift_Ok.
  - rewrite bind_lift_Ok. destruct (operation_ok_dict _ Hs) as [o ->].
    apply operation_checks_returns.
  - apply returns_ret.
Qed.

Lemma structure_returns d :
  match Py.lookup "openapi" d with
  | None | Some (VStr _) => true
  | Some _ => false
  end = true ->
  match Py.lookup "info" d with
  | None => true
  | Some info => is_container info
  end = true ->
  returns (structure_body (VDict d)).
Proof.
  intros Hv Hi. unfold structure_body.
  rewrite version_check_closed, info_check_closed, paths_check_closed.
  apply returns_bind; [|intros _; apply returns_bind; [|intros _]].
  - destruct (Py.lookup "openapi" d) as [[| | | |v| |]|]; try discriminate Hv.
    + destruct (Str.startswith v "3.0"); [apply returns_ret|apply returns_error].
    + apply returns_error.
  - destruct (Py.lookup "info" d) as [info|]; [|apply returns_error].
    destruct (contains_container "title" info Hi) as [bt Ht].
    destruct (contains_container "version" info Hi) as [bv Hver].
    rewrite Ht, Hver, !bind_lift_Ok.
    apply returns_bind; [apply returns_when, returns_error|].
    intros _. apply returns_when, returns_error.
  - destruct (Py.lookup "paths" d) as [paths|]; [|apply returns_error].
    destruct (Py.truthy paths); [apply returns_ret|apply returns_error].
Qed.

Lemma paths_returns d :
  match Py.lookup "paths" d with
  | None => true
  | Some (VDict ps) => forallb (fun entry => path_item_shape (snd entry)) ps
  | Some _ => false
  end = true ->
  returns (paths_body (VDict d)).
Proof.
  intros Hp. unfold paths_body. cbn [Py.get]. rewrite bind_lift_Ok.
  destruct (Py.lookup "paths" d) as [[| | | | | |ps]|]; try discriminate Hp;
    cbn [Py.items empty_dict]; rewrite bind_lift_Ok.
  - apply returns_for_each. intros entry Hin. rewrite forallb_forall in Hp.
    apply path_checks_returns, Hp, Hin.
  - apply returns_ret.
Qed.

Lemma named_entries k c :
  named_mappings k c = true ->
  exists entries,
    Py.get (VDict c) k empty_dict = Ok (VDict entries) /\
    forall entry, In entry entries -> exists s, snd entry = VDict s.
Proof.
  unfold named_mappings. cbn [Py.get]. intros H.
  destruct (Py.lookup k c) as [[| | | | | |entries]|]; try discriminate H.
  - exists entries. split; [reflexivity|]. intros entry Hin.
    rewrite forallb_forall in H. specialize (H entry Hin).
    destruct (snd entry); try discriminate H. eauto.
  - exists []. split; [reflexivity|]. intros entry [].
Qed.

Lemma components_shape d :
  match Py.lookup "components" d with
  | None => true
  | Some (VDict c) => named_mappings "schemas" c && named_mappings "securitySchemes" c
  | Some _ => false
  end = true ->
  exists c, Py.get (VDict d) "components" empty_dict = Ok (VDict c) /\
            named_mappings "schemas" c = true /\
            named_mappings "securitySchemes" c = true.
Proof.
  cbn [Py.get]. intros H.
  destruct (Py.lookup "components" d) as [[| | | | | |c]|]; try discriminate H.
  - apply andb_true_iff in H. exists c. split; [reflexivity|exact H].
  - exists []. split; [reflexivity|]. split; reflexivity.
Qed.

Lemma schemas_returns d :
  match Py.lookup "components" d with
  | None => true
  | Some (VDict c) => named_mappings "schemas" c && named_mappings "securitySchemes" c
  | Some _ => false
  end = true ->
  returns (schemas_body (VDict d)).
Proof.
  intros H. destruct (components_shape d H) as [c [Hc [Hs _]]].
  destruct (named_entries "schemas" c Hs) as [entries [He Hall]].
  unfold schemas_body. rewrite Hc, bind_lift_Ok, He, bind_lift_Ok.
  cbn [Py.items]. rewrite bind_lift_Ok.
  apply returns_for_each. intros entry Hin. destruct (Hall entry Hin) as [s ->].
  rewrite schema_checks_closed. eexists _, _. reflexivity.
Qed.

Lemma security_returns d :
  match Py.lookup "components" d with
  | None => true
  | Some (VDict c) => named_mappings "schemas" c && named_mappings "securitySchemes" c
  | Some _ => false
  end = true ->
  returns (security_body (VDict d)).
Proof.
  intros H. destruct (components_shape d H) as [c [Hc [_ Hs]]].
  destruct (named_entries "securitySchemes" c Hs) as [entries [He Hall]].
  unfold security_body. rewrite Hc, bind_lift_Ok, He, bind_lift_Ok.
  apply returns_bind; [apply returns_when, returns_warning|]. intros _.
  cbn [Py.items]. rewrite bind_lift_Ok.
  apply returns_for_each. intros entry Hin. destruct (Hall entry Hin) as [s ->].
  rewrite scheme_checks_closed. eexists _, _. reflexivity.
Qed.

Lemma path_item_shape_ok path_item :
  path_item_shape path_item = true -> path_item_ok path_item = true.
Proof.
  destruct path_item as [| | | | | |i]; try discriminate.
  unfold path_item_shape, path_item_ok. rewrite !forallb_forall.
  intros H method Hm. apply H. unfold example_operations in Hm.
  unfold operations. simpl in *. intuition.
Qed.

Lemma examples_shape d :
  match Py.lookup "paths" d with
  | None => true
  | Some (VDict ps) => forallb (fun entry => path_item_shape (snd entry)) ps
  | Some _ => false
  end = true ->
  examples_ok (VDict d) = true.
Proof.
  unfold examples_ok. destruct (Py.lookup "paths" d) as [[| | | | | |ps]|]; auto.
  rewrite !forallb_forall. intros H entry Hin.
  apply path_item_shape_ok, H, Hin.
Qed.

Lemma best_practices_returns d :
  match Py.lookup "info" d with
  | None => true
  | Some info => is_container info
  end = true ->
  match Py.lookup "paths" d with
  | None => true
  | Some (VDict ps) => forallb (fun entry => path_item_shape (snd entry)) ps
  | Some _ => false
  end = true ->
  returns (best_practices_body (VDict d)).
Proof.
  intros Hi Hp. unfold best_practices_body. cbn [Py.contains Py.get].
  rewrite ?bind_lift_Ok; cbv beta.
  apply returns_bind; [apply returns_when, returns_warning|]. intros _.
  rewrite ?bind_lift_Ok; cbv beta.
  apply returns_bind; [apply returns_when, returns_warning|]. intros _.
  rewrite ?bind_lift_Ok; cbv beta.
  assert (Hinfo : is_container match Py.lookup "info" d with
                               | Some v => v | None => empty_dict end = true).
  { destruct (Py.lookup "info" d); [exact Hi|reflexivity]. }
  destruct (contains_container "contact" _ Hinfo) as [bc Hc].
  destruct (contains_container "license" _ Hinfo) as [bl Hl].
  rewrite Hc, ?bind_lift_Ok; cbv beta.
  apply returns_bind; [apply returns_when, returns_warning|]. intros _.
  rewrite Hl, ?bind_lift_Ok; cbv beta.
  apply returns_bind; [apply returns_when, returns_warning|]. intros _.
  assert (Hkeys : exists keys,
            Py.keys match Py.lookup "paths" d with
                    | Some v => v | None => empty_dict end = Ok keys).
  { destruct (Py.lookup "paths" d) as [[| | | | | |ps]|]; try discriminate Hp;
      eexists; reflexivity. }
  destruct Hkeys as [keys Hk]. rewrite Hk, ?bind_lift_Ok; cbv beta.
  apply returns_for_each. intros path _.
  apply returns_bind; [|intros _; apply returns_bind; [|intros _]].
  - unfold param_rule. apply returns_when, returns_for_each.
    intros param _. apply returns_when, returns_warning.
  - unfold trailing_slash_rule. apply returns_when, returns_warning.
  - unfold verb_rule. cbv zeta. apply returns_for_each.
    intros verb _. apply returns_when, returns_warning.
Qed.



(** ** Findings of an operation; conventions on the document *)

Lemma operation_checks_closed path method o :
  operation_checks path method (VDict o) =
  Ok (tt,
      (match Py.lookup "responses" o with
       | None => [missing_responses_msg method path]
       | Some r => if Py.truthy r then [] else [empty_responses_msg method path]
       end,
       ((if negb (has "summary" o || has "description" o)
         then [undocumented_msg method path] else [])
        ++ (if has "operationId" o then [] else [no_operation_id_msg method path]))%list)).
Proof.
  unfold operation_checks. cbn [Py.contains Py.getitem]. rewrite none_in_mapping.
  fold (has "operationId" o). cbn [existsb]. rewrite orb_false_r.
  rewrite ?bind_lift_Ok; cbv beta. rewrite ?bind_ret_l; cbv beta.
  destruct (Py.lookup "responses" o) as [r|]; cbn [negb];
    rewrite ?bind_lift_Ok; cbv beta;
    try destruct (Py.truthy r);
    destruct (has "summary" o || has "description" o);
    destruct (has "operationId" o); reflexivity.
Qed.

(** X11: on an operation that is a mapping the checks never raise; they
    file at most one error, none exactly when [responses] is present and
    not empty, and at most two warnings: one exactly when both [summary]
    and [description] are absent, one exactly when [operationId] is
    absent. *)
Theorem operation_findings_characterised
    (path method : string) (o : list (string * value)) :
  exists es ws,
    operation_checks path method (VDict o) = Ok (tt, (es, ws)) /\
    length es <= 1 /\ length ws <= 2 /\
    (es = [] <-> exists r, Py.lookup "responses" o = Some r /\ Py.truthy r = true) /\
    (In (undocumented_msg method path) ws <->
     Py.lookup "summary" o = None /\ Py.lookup "description" o = None) /\
    (In (no_operation_id_msg method path) ws <-> Py.lookup "operationId" o = None).
Proof.
  eexists _, _. split; [apply operation_checks_closed|].
  assert (Hd : undocumented_msg method path <> no_operation_id_msg method path).
  { intros H. apply append_inv_head in H.
    change (" " ++ path ++ ": Missing 'summary' or 'description'")
      with (String " " (path ++ ": Missing 'summary' or 'description'")) in H.
    change (" " ++ path ++ ": Missing 'operationId' (recommended)")
      with (String " " (path ++ ": Missing 'operationId' (recommended)")) in H.
    inversion H as [H']. apply append_inv_head in H'. discriminate H'. }
  unfold has. split; [|split; [|split; [|split]]].
  - destruct (Py.lookup "responses" o) as [r|]; [destruct (Py.truthy r)|]; simpl; lia.
  - destruct (Py.lookup "summary" o), (Py.lookup "description" o),
      (Py.lookup "operationId" o); simpl; lia.
  - destruct (Py.lookup "responses" o) as [r|].
    + destruct (Py.truthy r) eqn:Ht; split; intros H; try discriminate H; eauto.
      destruct H as [r' [Hr Ht']]. inversion Hr; subst. congruence.
    + split; [discriminate|]. intros [r [Hr _]]. discriminate Hr.
  - destruct (Py.lookup "summary" o), (Py.lookup "description" o),
      (Py.lookup "operationId" o); simpl; split; intros H;
      repeat match goal with
             | H : _ \/ _ |- _ => destruct H
             | H : _ /\ _ |- _ => destruct H
             | H : False |- _ => destruct H
             end; try discriminate; auto;
      exfalso; apply Hd; congruence.
  - destruct (Py.lookup "summary" o), (Py.lookup "description" o),
      (Py.lookup "operationId" o); simpl; split; intros H;
      repeat match goal with
             | H : _ \/ _ |- _ => destruct H
             | H : False |- _ => destruct H
             end; try discriminate; auto;
      exfalso; apply Hd; congruence.
Qed.

Lemma path_conventions_messages keys :
  emits (fun e => substring 0 2 e = "Pa")
    (for_each keys (fun path =>
       param_rule path ;;; trailing_slash_rule path ;;; verb_rule path)).
Proof.
  unfold param_rule, trailing_slash_rule, verb_rule.
  repeat emits_step; reflexivity.
Qed.

(** X19: when the best-practices pass returns on a mapping document, its
    list holds the servers, tags, contact and license warnings exactly
    when [servers], [tags], [info.contact] and [info.license] are absent. *)
Theorem document_conventions_iff (d : list (string * value)) (l : list string) :
  validate_best_practices (VDict d) = Ok l ->
  (In no_servers_msg l <-> Py.lookup "servers" d = None) /\
  (In no_tags_msg l <-> Py.lookup "tags" d = None) /\
  (In no_contact_msg l <->
   Py.contains "contact" (field "info" (VDict d)) = Ok false) /\
  (In no_license_msg l <->
   Py.contains "license" (field "info" (VDict d)) = Ok false).
Proof.
  unfold validate_best_practices, best_practices_body.
  cbn [Py.contains Py.get field]. rewrite ?bind_lift_Ok; cbv beta.
  set (info := match Py.lookup "info" d with Some v => v | None => empty_dict end).
  set (paths := match Py.lookup "paths" d with Some v => v | None => empty_dict end).
  intros H.
  destruct (Py.contains "contact" info) as [hc|] eqn:Hc.
  2:{ destruct (Py.lookup "servers" d), (Py.lookup "tags" d); discriminate H. }
  destruct (Py.contains "license" info) as [hl|] eqn:Hl.
  2:{ destruct (Py.lookup "servers" d), (Py.lookup "tags" d), hc; discriminate H. }
  destruct (Py.keys paths) as [keys|] eqn:Hk.
  2:{ destruct (Py.lookup "servers" d), (Py.lookup "tags" d), hc, hl;
      discriminate H. }
  rewrite ?bind_lift_Ok in H; cbv beta in H.
  destruct (for_each keys (fun path =>
              param_rule path ;;; trailing_slash_rule path ;;; verb_rule path))
    as [[[] [es ws]]|] eqn:Hfor.
  2:{ destruct (Py.lookup "servers" d), (Py.lookup "tags" d), hc, hl;
      discriminate H. }
  destruct (path_conventions_messages keys tt es ws Hfor) as [Hes Hws].
  assert (Hnot : forall m, substring 0 2 m = "No" -> ~ In m (es ++ ws)).
  { intros m Hm Hin. apply in_app_or in Hin. rewrite Forall_forall in Hes, Hws.
    destruct Hin as [Hin|Hin]; [apply Hes in Hin|apply Hws in Hin]; congruence. }
  assert (N1 := Hnot no_servers_msg eq_refl).
  assert (N2 := Hnot no_tags_msg eq_refl).
  assert (N3 := Hnot no_contact_msg eq_refl).
  assert (N4 := Hnot no_license_msg eq_refl).
  assert (Hsplit : forall m, In m (es ++ ws) -> In m es \/ In m ws)
    by (intros m; apply in_app_or).
  destruct (Py.lookup "servers" d), (Py.lookup "tags" d), hc, hl;
    simpl in H; inversion H; subst l; clear H;
    repeat split; intros H;
    try reflexivity; try discriminate H;
    try (simpl; tauto);
    try (apply in_or_app; right;
         unfold no_servers_msg, no_tags_msg, no_contact_msg, no_license_msg;
         simpl; tauto);
    try (exfalso;
         repeat match goal with
                | H : In _ (_ :: _) |- _ => destruct H as [H|H]; [discriminate H|]
                | H : In _ (_ ++ _) |- _ => apply in_app_or in H; destruct H
                end;
         first [ apply N1; apply in_or_app; tauto
               | apply N2; apply in_or_app; tauto
               | apply N3; apply in_or_app; tauto
               | apply N4; apply in_or_app; tauto ]).
Qed.

Lemma document_conventions_iff_witness :
  (In no_servers_msg standing_warnings <->
   Py.lookup "servers" [("openapi", VStr "3.0.0"); Samples.info; ("paths", VDict [])]
   = None) /\
  (In no_tags_msg standing_warnings <->
   Py.lookup "tags" [("openapi", VStr "3.0.0"); Samples.info; ("paths", VDict [])]
   = None) /\
  (In no_contact_msg standing_warnings <->
   Py.contains "contact" (field "info" Samples.doc_empty_paths) = Ok false) /\
  (In no_license_msg standing_warnings <->
   Py.contains "license" (field "info" Samples.doc_empty_paths) = Ok false).
Proof.
  exact (document_conventions_iff
           [("openapi", VStr "3.0.0"); Samples.info; ("paths", VDict [])]
           standing_warnings eq_refl).
Defined.
